(** * Flash: chunking, flashcard parsing and the HTTP handlers

    A shallow embedding of the Python sources
      src/chunking/document_chunking.py
      src/flashcards/flashcard_pipeline.py
      src/ingestion/load_documents.py
      src/server/app.py, src/server/schemas.py
    and the properties of the specification that concern them.

    Conventions.
    - A Python [str] is the list of its code points ([list N]); [py "..."]
      turns a literal into that form.
    - A Python exception is a value of [exn]; a call that may raise returns
      a [result].
    - Code with side effects (files, the language model, the RAG pipeline) is
      written in the monad [M]: a function from the [World] before the call to
      the outcome and the [World] after it.  A raised exception keeps the
      changes made before it, as in Python.
    - Functions the sources call but do not define ([json.loads], the
      language model, the text splitter, [DataFrame.to_csv], the PDF loader,
      the RAG pipeline) are [Variable]s of the section that uses them, so
      that what is proved of the sources holds whatever these do.
    - Where a property is about what such a function returns, or a run on a
      concrete input needs one, a model of it is given: [Json.loads],
      [Csv], [TextSplitter]. *)

From Stdlib Require Import ZArith NArith List String Ascii Lia Bool.
From Stdlib Require Import Numbers.DecimalString.
From stdpp Require Import gmap strings list fin_maps.
Import ListNotations.

Set Warnings "-register-all".

(* ===================================================================== *)
(** * Part I: the embedding                                               *)
(* ===================================================================== *)

(** ** Python strings *)

Abbreviation char := N.
Abbreviation str := (list N).

Module Py.

Definition py (s : string) : str := map N_of_ascii (list_ascii_of_string s).

Definition nl : char := 10%N.        (* "\n" *)
Definition cr : char := 13%N.        (* "\r" *)
Definition space : char := 32%N.     (* " "  *)
Definition dquote : char := 34%N.    (* the double quote *)
Definition comma : char := 44%N.     (* ","  *)
Definition backslash : char := 92%N.
Definition lbrace : char := 123%N.   (* "{"  *)
Definition rbrace : char := 125%N.   (* "}"  *)

(** [str.isspace] on one code point: the characters [str.strip()] removes. *)
Definition isspace (c : char) : bool :=
  ((9 <=? c) && (c <=? 13) || (28 <=? c) && (c <=? 32)
   || (c =? 133) || (c =? 160) || (c =? 5760)
   || (8192 <=? c) && (c <=? 8202)
   || (c =? 8232) || (c =? 8233) || (c =? 8239) || (c =? 8287)
   || (c =? 12288))%N.

Fixpoint lstrip (s : str) : str :=
  match s with
  | c :: s' => if isspace c then lstrip s' else s
  | [] => []
  end.

Definition rstrip (s : str) : str := rev (lstrip (rev s)).

(** [s.strip()] *)
Definition strip (s : str) : str := rstrip (lstrip s).

(** [s.replace(old, new)] for one-character [old] and [new]. *)
Definition replace (old new : char) (s : str) : str :=
  map (fun c => if N.eqb c old then new else c) s.

(** Position of the first occurrence of [c]. *)
Fixpoint index_of (c : char) (s : str) : option nat :=
  match s with
  | [] => None
  | x :: s' => if N.eqb x c then Some 0
               else match index_of c s' with
                    | Some i => Some (S i)
                    | None => None
                    end
  end.

(** [s.find(c)] for a one-character [c]: lowest index, or -1. *)
Definition find (c : char) (s : str) : Z :=
  match index_of c s with
  | Some i => Z.of_nat i
  | None => (-1)%Z
  end.

(** [s.rfind(c)] for a one-character [c]: highest index, or -1. *)
Definition rfind (c : char) (s : str) : Z :=
  match index_of c (rev s) with
  | Some i => (Z.of_nat (length s) - 1 - Z.of_nat i)%Z
  | None => (-1)%Z
  end.

(** [s[a:b]] for indices [0 <= a]; the sources use no negative index. *)
Definition slice (s : str) (a b : Z) : str :=
  firstn (Z.to_nat (b - a)) (skipn (Z.to_nat a) s).

(** [s[:n]] *)
Definition prefix (n : nat) (s : str) : str := firstn n s.

(** [sep.join(parts)] *)
Fixpoint join (sep : str) (parts : list str) : str :=
  match parts with
  | [] => []
  | [p] => p
  | p :: rest => p ++ sep ++ join sep rest
  end.

(** [str(n)] for an [int]. *)
Definition str_of_int (z : Z) : str :=
  py (NilEmpty.string_of_int (Z.to_int z)).

(** [s.startswith(p)] *)
Definition startswith (p s : str) : bool :=
  if decide (firstn (length p) s = p) then true else false.

(** Truth value of a [str]: non-empty. *)
Definition truthy (s : str) : bool :=
  match s with [] => false | _ => true end.

End Py.
Export Py.

(** ** List helpers for paths and URLs *)

Module Scan.

(** The longest prefix of [s] whose characters all satisfy [f]. *)
Fixpoint take_while (f : char -> bool) (s : str) : str :=
  match s with
  | c :: s' => if f c then c :: take_while f s' else []
  | [] => []
  end.

(** [s] without that prefix. *)
Fixpoint drop_while (f : char -> bool) (s : str) : str :=
  match s with
  | c :: s' => if f c then drop_while f s' else s
  | [] => []
  end.

(** [s.rstrip(c)] for a one-character [c]. *)
Definition rstrip_char (c : char) (s : str) : str :=
  rev (drop_while (fun x => (x =? c)%N) (rev s)).

End Scan.
Export Scan.

(** ** Exceptions and results *)

Inductive exn : Type :=
| FileNotFoundError
| JSONDecodeError
| AttributeError
| TypeError
| IndexError
| ValueError
| ValidationError                       (* pydantic: a field fails its constraint *)
| LibraryError (msg : str)              (* raised inside a library call *)
| CustomException (cause : exn)         (* src.exception.CustomException(e, sys) *)
| HTTPException (status : Z) (cause : exn)   (* detail = str(cause) *)
| FileExistsError
| NotADirectoryError.

Inductive result (A : Type) : Type :=
| Ok (a : A)
| Raise (e : exn).
Arguments Ok {A} a.
Arguments Raise {A} e.

Definition rbind {A B} (r : result A) (k : A -> result B) : result B :=
  match r with
  | Ok a => k a
  | Raise e => Raise e
  end.

Notation "'let?' x ':=' c 'in' k" := (rbind c (fun x => k))
  (at level 10, x name, c at level 100, k at level 200).

(** ** JSON values, as [json.loads] builds them *)

Inductive json : Type :=
| JNull                                  (* None *)
| JBool (b : bool)
| JInt (z : Z)
| JFloat (lexeme : str)                  (* a float, kept as written *)
| JStr (s : str)
| JList (l : list json)
| JDict (items : list (str * json)).     (* keys in insertion order *)

Module Json.

Fixpoint dict_lookup (k : str) (d : list (str * json)) : option json :=
  match d with
  | [] => None
  | (k', v) :: d' => if decide (k' = k) then Some v else dict_lookup k d'
  end.

(** [d[k] = v] on a dict: replaces in place, or appends a new key. *)
Fixpoint dict_set (k : str) (v : json) (d : list (str * json)) : list (str * json) :=
  match d with
  | [] => [(k, v)]
  | (k', v') :: d' => if decide (k' = k) then (k, v) :: d'
                      else (k', v') :: dict_set k v d'
  end.

(** [obj.get(k, default)]: only a dict has the method. *)
Definition get (obj : json) (k : str) (default : json) : result json :=
  match obj with
  | JDict d => Ok (match dict_lookup k d with Some v => v | None => default end)
  | _ => Raise AttributeError
  end.

(** [obj.strip()]: only a str has the method. *)
Definition strip_method (obj : json) : result str :=
  match obj with
  | JStr s => Ok (strip s)
  | _ => Raise AttributeError
  end.

(** [for item in obj]: the items a [for] loop visits. *)
Definition iter (obj : json) : result (list json) :=
  match obj with
  | JList l => Ok l
  | JDict d => Ok (map (fun kv => JStr (fst kv)) d)
  | JStr s => Ok (map (fun c => JStr [c]) s)
  | _ => Raise TypeError
  end.

(** *** A reference decoder

    [json.loads] belongs to the Python library; the parser below is
    parametric in it.  [loads] is a decoder for the same grammar (objects,
    arrays, strings with their escapes, numbers, the literals), used to run
    the parser on concrete responses. *)

Definition is_ws (c : char) : bool :=
  ((c =? 32) || (c =? 9) || (c =? 10) || (c =? 13))%N.

Fixpoint skip_ws (s : str) : str :=
  match s with
  | c :: s' => if is_ws c then skip_ws s' else s
  | [] => []
  end.

Definition is_digit (c : char) : bool := ((48 <=? c) && (c <=? 57))%N.

Fixpoint take_digits (s : str) : str * str :=
  match s with
  | c :: s' => if is_digit c
               then let (d, r) := take_digits s' in (c :: d, r)
               else ([], s)
  | [] => ([], [])
  end.

Definition digits_value (d : str) : Z :=
  fold_left (fun acc c => (10 * acc + Z.of_N (c - 48))%Z) d 0%Z.

Definition hex_value (c : char) : option N :=
  if is_digit c then Some (c - 48)%N
  else if ((97 <=? c) && (c <=? 102))%N then Some (c - 87)%N
  else if ((65 <=? c) && (c <=? 70))%N then Some (c - 55)%N
  else None.

Definition hex4 (s : str) : option (N * str) :=
  match s with
  | a :: b :: c :: d :: rest =>
      match hex_value a, hex_value b, hex_value c, hex_value d with
      | Some x, Some y, Some z, Some w =>
          Some (((x * 16 + y) * 16 + z) * 16 + w, rest)%N
      | _, _, _, _ => None
      end
  | _ => None
  end.

(** The text after an opening double quote, up to the closing one. *)
Fixpoint scan_string (fuel : nat) (s acc : str) : option (str * str) :=
  match fuel with
  | 0 => None
  | S fuel' =>
    match s with
    | [] => None
    | c :: s' =>
      if (c =? dquote)%N then Some (rev acc, s')
      else if (c =? backslash)%N then
        match s' with
        | [] => None
        | e :: s'' =>
          if (e =? 117)%N then              (* \uXXXX *)
            match hex4 s'' with
            | None => None
            | Some (u, r) =>
              if ((55296 <=? u) && (u <=? 56319))%N then
                match r with
                | b :: v :: r' =>
                  if ((b =? backslash) && (v =? 117))%N then
                    match hex4 r' with
                    | Some (u2, r2) =>
                      if ((56320 <=? u2) && (u2 <=? 57343))%N
                      then scan_string fuel' r2
                             ((65536 + ((u - 55296) * 1024 + (u2 - 56320)))%N :: acc)
                      else scan_string fuel' r (u :: acc)
                    | None => scan_string fuel' r (u :: acc)
                    end
                  else scan_string fuel' r (u :: acc)
                | _ => scan_string fuel' r (u :: acc)
                end
              else scan_string fuel' r (u :: acc)
            end
          else
            let plain x := scan_string fuel' s'' (x :: acc) in
            if (e =? dquote)%N then plain dquote
            else if (e =? backslash)%N then plain backslash
            else if (e =? 47)%N then plain 47%N
            else if (e =? 98)%N then plain 8%N
            else if (e =? 102)%N then plain 12%N
            else if (e =? 110)%N then plain 10%N
            else if (e =? 114)%N then plain 13%N
            else if (e =? 116)%N then plain 9%N
            else None
        end
      else if (c <? 32)%N then None
      else scan_string fuel' s' (c :: acc)
    end
  end.

(** A number: an optional minus sign, an integer part without a leading
    zero, an optional fraction and an optional exponent. *)
Definition scan_number (s : str) : option (json * str) :=
  let (neg, s1) := match s with
                   | c :: r => if (c =? 45)%N then (true, r) else (false, s)
                   | [] => (false, s)
                   end in
  let (ds, s2) := take_digits s1 in
  match ds with
  | [] => None
  | d0 :: ds' =>
    let '(int_part, s2) := if (d0 =? 48)%N then ([d0], ds' ++ s2) else (ds, s2) in
    let '(frac, s3) :=
      match s2 with
      | c :: r => if (c =? 46)%N
                  then match take_digits r with
                       | ([], _) => ([], s2)
                       | (fd, r') => (c :: fd, r')
                       end
                  else ([], s2)
      | [] => ([], s2)
      end in
    let '(ex, s4) :=
      match s3 with
      | c :: r =>
        if ((c =? 101) || (c =? 69))%N then
          let '(sign, r1) := match r with
                            | g :: r' => if ((g =? 43) || (g =? 45))%N
                                         then ([g], r') else ([], r)
                            | [] => ([], r)
                            end in
          match take_digits r1 with
          | ([], _) => ([], s3)
          | (ed, r') => (c :: sign ++ ed, r')
          end
        else ([], s3)
      | [] => ([], s3)
      end in
    match frac, ex with
    | [], [] => Some (JInt (if neg then - digits_value int_part
                                  else digits_value int_part), s4)
    | _, _ => Some (JFloat ((if neg then [45%N] else []) ++ int_part ++ frac ++ ex), s4)
    end
  end.

Definition scan_literal (s : str) : option (json * str) :=
  let lit name v :=
    if startswith (py name) s
    then Some (v, skipn (String.length name) s) else None in
  match lit "null" JNull with Some r => Some r | None =>
  match lit "true" (JBool true) with Some r => Some r | None =>
  match lit "false" (JBool false) with Some r => Some r | None =>
  match scan_number s with Some r => Some r | None =>
  match lit "NaN" (JFloat (py "NaN")) with Some r => Some r | None =>
  match lit "Infinity" (JFloat (py "Infinity")) with Some r => Some r | None =>
  lit "-Infinity" (JFloat (py "-Infinity"))
  end end end end end end.

Fixpoint scan_value (fuel : nat) (s : str) : option (json * str) :=
  match fuel with
  | 0 => None
  | S fuel' =>
    match s with
    | [] => None
    | c :: s' =>
      if (c =? dquote)%N then
        match scan_string (length s) s' [] with
        | Some (t, r) => Some (JStr t, r)
        | None => None
        end
      else if (c =? lbrace)%N then
        match skip_ws s' with
        | c1 :: r1 => if (c1 =? rbrace)%N then Some (JDict [], r1)
                      else scan_members fuel' (c1 :: r1) []
        | [] => None
        end
      else if (c =? 91)%N then
        match skip_ws s' with
        | c1 :: r1 => if (c1 =? 93)%N then Some (JList [], r1)
                      else scan_elements fuel' (c1 :: r1) []
        | [] => None
        end
      else scan_literal s
    end
  end
with scan_elements (fuel : nat) (s : str) (acc : list json) : option (json * str) :=
  match fuel with
  | 0 => None
  | S fuel' =>
    match scan_value fuel' s with
    | None => None
    | Some (v, s1) =>
      match skip_ws s1 with
      | c :: r => if (c =? 93)%N then Some (JList (rev (v :: acc)), r)
                  else if (c =? comma)%N then scan_elements fuel' (skip_ws r) (v :: acc)
                  else None
      | [] => None
      end
    end
  end
with scan_members (fuel : nat) (s : str) (acc : list (str * json)) : option (json * str) :=
  match fuel with
  | 0 => None
  | S fuel' =>
    match s with
    | q :: s0 =>
      if (q =? dquote)%N then
        match scan_string (length s) s0 [] with
        | None => None
        | Some (k, s1) =>
          match skip_ws s1 with
          | c :: s2 =>
            if (c =? 58)%N then
              match scan_value fuel' (skip_ws s2) with
              | None => None
              | Some (v, s3) =>
                let acc' := dict_set k v acc in
                match skip_ws s3 with
                | d :: r => if (d =? rbrace)%N then Some (JDict acc', r)
                            else if (d =? comma)%N
                            then scan_members fuel' (skip_ws r) acc'
                            else None
                | [] => None
                end
              end
            else None
          | [] => None
          end
        end
      else None
    | [] => None
    end
  end.

Definition loads (s : str) : option json :=
  match s with
  | 65279%N :: _ => None               (* a leading byte-order mark *)
  | _ =>
    match scan_value (2 * length s + 2) (skip_ws s) with
    | Some (v, r) => match skip_ws r with [] => Some v | _ => None end
    | None => None
    end
  end.

End Json.

(** ** Documents *)

(** [langchain_core.documents.Document]: the text and a metadata dict.  The
    sources read the keys "source" and "doc_type", both strings. *)
Record Document : Type := mkDocument {
  page_content : str;
  metadata : gmap str str;
}.

(** ** The world: files, and the calls made to the collaborators *)

(** How a write to a file goes wrong: the call is refused before the file
    is touched (no permission, a read-only file system), or it raises once
    the file has been opened and part of the text, possibly none, has been
    written (a full disk, a character that cannot be encoded). *)
Inductive fault : Type :=
| Refused (e : exn)
| Partial (e : exn) (written : str).

Definition fault_exn (f : fault) : exn :=
  match f with
  | Refused e => e
  | Partial e _ => e
  end.

Record World : Type := mkWorld {
  files : gmap str str;        (* regular files: path to contents *)
  dirs : gset str;             (* directories *)
  tempfiles : list str;        (* names NamedTemporaryFile handed out, latest first *)
  prompts : list str;          (* prompts sent to llm.invoke, latest first *)
  questions : list str;        (* questions sent to answer_question, latest first *)
  write_fault : str -> str -> option fault;
                               (* what goes wrong when a text is written to a path *)
}.

Definition set_files (f : gmap str str -> gmap str str) (w : World) : World :=
  mkWorld (f (files w)) (dirs w) (tempfiles w) (prompts w) (questions w)
          (write_fault w).
Definition set_dirs (f : gset str -> gset str) (w : World) : World :=
  mkWorld (files w) (f (dirs w)) (tempfiles w) (prompts w) (questions w)
          (write_fault w).
Definition set_tempfiles (f : list str -> list str) (w : World) : World :=
  mkWorld (files w) (dirs w) (f (tempfiles w)) (prompts w) (questions w)
          (write_fault w).
Definition set_prompts (f : list str -> list str) (w : World) : World :=
  mkWorld (files w) (dirs w) (tempfiles w) (f (prompts w)) (questions w)
          (write_fault w).
Definition set_questions (f : list str -> list str) (w : World) : World :=
  mkWorld (files w) (dirs w) (tempfiles w) (prompts w) (f (questions w))
          (write_fault w).
Definition set_write_fault (f : str -> str -> option fault) (w : World) : World :=
  mkWorld (files w) (dirs w) (tempfiles w) (prompts w) (questions w) f.

Definition M (A : Type) : Type := World -> result A * World.

Definition ret {A} (a : A) : M A := fun w => (Ok a, w).
Definition raise {A} (e : exn) : M A := fun w => (Raise e, w).
Definition lift {A} (r : result A) : M A := fun w => (r, w).

Definition bind {A B} (c : M A) (k : A -> M B) : M B :=
  fun w => match c w with
           | (Ok a, w') => k a w'
           | (Raise e, w') => (Raise e, w')
           end.

Notation "'let*' x ':=' c 'in' k" := (bind c (fun x => k))
  (at level 10, x name, c at level 100, k at level 200).

(** [try: body  except Exception as e: handler(e)] *)
Definition try_except {A} (body : M A) (handler : exn -> M A) : M A :=
  fun w => match body w with
           | (Ok a, w') => (Ok a, w')
           | (Raise e, w') => handler e w'
           end.

(** [try: body  finally: final]: [final] runs on both exits; an exception
    of [final] replaces the outcome of [body]. *)
Definition try_finally {A} (body : M A) (final : M unit) : M A :=
  fun w => let (r, w1) := body w in
           match final w1 with
           | (Ok _, w2) => (r, w2)
           | (Raise e, w2) => (Raise e, w2)
           end.

(** No file, no directory, and no write goes wrong. *)
Definition empty_world : World := mkWorld ∅ ∅ [] [] [] (fun _ _ => None).

(** *** The operating-system calls of the sources *)

Module os.

(** Paths are compared as they are written: no symbolic links, no "." or
    ".." components, no repeated slashes. *)

(** A path made of slashes only: the root. *)
Definition is_root (p : str) : bool :=
  truthy p && forallb (fun c => (c =? 47)%N) p.

(** [posixpath.split(p)]: the head, without its trailing slashes unless it
    is the root, and the last component. *)
Definition path_split (p : str) : str * str :=
  let tail := rev (take_while (fun c => negb (c =? 47)%N) (rev p)) in
  let head := rev (drop_while (fun c => negb (c =? 47)%N) (rev p)) in
  (if forallb (fun c => (c =? 47)%N) head then head else rstrip_char 47%N head, tail).

(** The path the system resolves a name to: trailing slashes do not
    count. *)
Definition norm (p : str) : str :=
  if forallb (fun c => (c =? 47)%N) p then p else rstrip_char 47%N p.

(** [Path(path).exists()], [os.path.exists(path)] *)
Definition exists_ (path : str) : M bool :=
  fun w => (Ok (bool_decide (is_Some (files w !! path)) || bool_decide (path ∈ dirs w)), w).

(** [os.path.isdir(path)] *)
Definition isdir (path : str) : M bool :=
  fun w => (Ok (is_root (norm path) || bool_decide (norm path ∈ dirs w)), w).

(** [os.mkdir(path)]: the path must be new and its parent a directory; the
    root, and the current directory of a relative path, always are. *)
Definition mkdir (path : str) : M unit :=
  fun w =>
    let p := norm path in
    let parent := fst (path_split p) in
    if negb (truthy p) then (Raise FileNotFoundError, w)
    else if is_root p || bool_decide (is_Some (files w !! p)) || bool_decide (p ∈ dirs w)
    then (Raise FileExistsError, w)
    else if negb (truthy parent) || is_root parent || bool_decide (parent ∈ dirs w)
    then (Ok tt, set_dirs (fun d => {[p]} ∪ d) w)
    else if bool_decide (is_Some (files w !! parent)) then (Raise NotADirectoryError, w)
    else (Raise FileNotFoundError, w).

(** [os.makedirs(name, exist_ok=True)], after the library's own text: the
    missing ancestors are made first, then the directory itself; an error
    of the last [mkdir] is passed over when the directory exists.  The
    recursion is on a shorter path each time; [fuel] bounds its depth. *)
Fixpoint makedirs_fuel (fuel : nat) (name : str) : M unit :=
  match fuel with
  | 0 => raise (LibraryError (py "RecursionError"))
  | S fuel' =>
      let (head, tail) := path_split name in
      let (head, tail) := if truthy tail then (head, tail) else path_split head in
      let* done :=
        (if truthy head && truthy tail then
           let* present := exists_ head in
           if negb present then
             let* _ :=
               try_except (makedirs_fuel fuel' head)
                 (fun e => match e with
                           | FileExistsError => ret tt
                           | _ => raise e
                           end) in
             ret (if decide (tail = py ".") then true else false)
           else ret false
         else ret false) in
      if (done : bool) then ret tt
      else
        try_except (mkdir name)
          (fun e =>
             let* is_dir := isdir name in
             if is_dir then ret tt else raise e)
  end.

Definition makedirs (path : str) : M unit := makedirs_fuel (S (length path)) path.

(** [os.remove(path)]: the file must exist. *)
Definition remove (path : str) : M unit :=
  fun w => match files w !! path with
           | Some _ => (Ok tt, set_files (delete path) w)
           | None => (Raise FileNotFoundError, w)
           end.

(** Opening [path] for writing and writing [contents]: the file then holds
    exactly [contents], unless the write goes wrong. *)
Definition write_file (path contents : str) : M unit :=
  fun w => match write_fault w path contents with
           | None => (Ok tt, set_files (<[path := contents]>) w)
           | Some (Refused e) => (Raise e, w)
           | Some (Partial e written) => (Raise e, set_files (<[path := written]>) w)
           end.

End os.

(** ** pandas: the table handed to [to_csv] *)

Record DataFrame : Type := mkDataFrame {
  columns : list str;
  rows : list (list str);
}.

Module pd.

(** [pd.DataFrame(columns=cols)]: the named columns and no row. *)
Definition DataFrame_columns (cols : list str) : DataFrame := mkDataFrame cols [].

(** [pd.DataFrame(records)] for a list of dicts that all have the same keys
    in the same order: one column per key, one row per dict; no column at
    all when the list is empty. *)
Definition DataFrame_records (records : list (list (str * str))) : DataFrame :=
  mkDataFrame (match records with
               | [] => []
               | r :: _ => map fst r
               end)
              (map (map snd) records).

End pd.

(** *** A reference CSV codec

    [DataFrame.to_csv] belongs to pandas; the chunker below is parametric in
    the writer.  [Csv.to_csv] writes a table the way [to_csv(index=False)]
    does for string cells, through the writer of Python's csv module with
    the line terminator "\n": the header first, one line per row, a cell
    quoted when it holds a comma, a quote or a line feed, quotes doubled.  A
    carriage return alone does not make the writer quote a cell. *)

Module Csv.

Definition special (c : char) : bool :=
  ((c =? comma) || (c =? dquote) || (c =? nl))%N.

Definition escape (f : str) : str :=
  flat_map (fun c => if (c =? dquote)%N then [dquote; dquote] else [c]) f.

Definition field (f : str) : str :=
  if existsb special f then dquote :: escape f ++ [dquote] else f.

(** One record; a record made of a single empty field is written quoted. *)
Definition line (fields : list str) : str :=
  match fields with
  | [ [] ] => [dquote; dquote; nl]
  | _ => join [comma] (map field fields) ++ [nl]
  end.

Definition to_csv (df : DataFrame) : str :=
  line (columns df) ++ flat_map line (rows df).

Inductive state : Type :=
| StartRecord | StartField | InField | InQuoted | QuoteInQuoted | AfterCR.

(** A character that ends a line. *)
Definition eol (c : char) : bool := ((c =? nl) || (c =? cr))%N.

(** The reader of Python's csv module on a file opened with [newline=""],
    not strict: outside quotes a line feed, a carriage return or the two
    together end the record, and an empty line is an empty record; inside
    quotes every character but the quote belongs to the field.  [fld] and
    [row] are the field and the record being read, [acc] the records read so
    far, all three reversed; after a carriage return the state is [AfterCR],
    where a line feed is passed over. *)
Fixpoint parse (s : str) (st : state) (fld : str) (row : list str)
    (acc : list (list str)) : list (list str) :=
  match s with
  | [] => match st with
          | StartRecord | AfterCR => rev acc
          | _ => rev (rev (rev fld :: row) :: acc)
          end
  | c :: s' =>
    let end_record f :=
      parse s' (if (c =? cr)%N then AfterCR else StartRecord) [] []
            (rev (f :: row) :: acc) in
    let end_field f := parse s' StartField [] (f :: row) acc in
    let start_field :=
      if eol c then end_record []
      else if (c =? dquote)%N then parse s' InQuoted [] row acc
      else if (c =? comma)%N then end_field []
      else parse s' InField [c] row acc in
    match st with
    | StartRecord =>
        if (c =? nl)%N then parse s' StartRecord [] [] ([] :: acc)
        else if (c =? cr)%N then parse s' AfterCR [] [] ([] :: acc)
        else start_field
    | AfterCR =>
        if (c =? nl)%N then parse s' StartRecord [] [] acc
        else if (c =? cr)%N then parse s' AfterCR [] [] ([] :: acc)
        else start_field
    | StartField => start_field
    | InField =>
        if eol c then end_record (rev fld)
        else if (c =? comma)%N then end_field (rev fld)
        else parse s' InField (c :: fld) row acc
    | InQuoted =>
        if (c =? dquote)%N then parse s' QuoteInQuoted fld row acc
        else parse s' InQuoted (c :: fld) row acc
    | QuoteInQuoted =>
        if (c =? dquote)%N then parse s' InQuoted (dquote :: fld) row acc
        else if (c =? comma)%N then end_field (rev fld)
        else if eol c then end_record (rev fld)
        else parse s' InField (c :: fld) row acc
    end
  end.

(** Modelled from the spec: the reader of the snapshot ("chunks written to
    the snapshot and re-read"), which is not among the sources.  It reads
    the records of the text as a CSV reader does, the first one as the
    header; a text without any record is not a table. *)
Definition read_csv (s : str) : option DataFrame :=
  match parse s StartRecord [] [] [] with
  | header :: records => Some (mkDataFrame header records)
  | [] => None
  end.

End Csv.

(** ** langchain_text_splitters: the splitter the chunker calls

    [RecursiveCharacterTextSplitter] is library code: the chunker below takes
    [split_documents] as a parameter.  This module follows the library's own
    text ([TextSplitter._merge_splits], [_join_docs], [create_documents],
    [_split_text_with_regex], [RecursiveCharacterTextSplitter._split_text])
    for the splitter as [document_chunking.py] builds it, so that the
    chunker can be run and its chunks measured. *)

Module TextSplitter.

(** The state of a [RecursiveCharacterTextSplitter] built with the
    library's defaults: [keep_separator=True], [strip_whitespace=True],
    [length_function=len], separators "\n\n", "\n", " ", "". *)
Record splitter : Type := mkSplitter {
  _chunk_size : Z;
  _chunk_overlap : Z;
  _separators : list str;
}.

Definition default_separators : list str := [ [nl; nl]; [nl]; [space]; [] ].

(** [RecursiveCharacterTextSplitter(chunk_size=..., chunk_overlap=...)] *)
Definition RecursiveCharacterTextSplitter (chunk_size chunk_overlap : Z)
    : result splitter :=
  if (chunk_overlap >? chunk_size)%Z then Raise ValueError
  else Ok (mkSplitter chunk_size chunk_overlap default_separators).

Definition len (s : str) : Z := Z.of_nat (length s).

(** [re.search(re.escape(sep), text)] *)
Fixpoint contains (sep text : str) : bool :=
  startswith sep text
  || match text with
     | [] => false
     | _ :: text' => contains sep text'
     end.

(** The pieces [re.split] cuts [text] into at the occurrences of [sep],
    each occurrence kept at the start of the piece that follows it; [cur]
    is the piece being read, reversed, and [skip] the number of characters
    of a found separator still to pass. *)
Fixpoint pieces (sep text cur : str) (skip : nat) : list str :=
  match text with
  | [] => [rev cur]
  | c :: text' =>
    match skip with
    | S k => pieces sep text' (c :: cur) k
    | 0 => if startswith sep text
           then rev cur :: pieces sep text' [c] (length sep - 1)
           else pieces sep text' (c :: cur) 0
    end
  end.

(** [_split_text_with_regex(text, separator, keep_separator=True)] *)
Definition _split_text_with_regex (text separator : str) : list str :=
  List.filter (fun s => negb (bool_decide (s = [])))
    (match separator with
     | [] => map (fun c => [c]) text
     | _ => pieces separator text [] 0
     end).

Section Splitter.

Variable self : splitter.

(** [_join_docs(docs, separator)] *)
Definition _join_docs (docs : list str) (separator : str) : option str :=
  let text := strip (join separator docs) in
  if decide (text = []) then None else Some text.

Definition append_doc (docs : list str) (doc : option str) : list str :=
  match doc with
  | Some d => docs ++ [d]
  | None => docs
  end.

(** The [while] loop of [_merge_splits]: pieces are dropped from the front
    of [current_doc]. *)
Fixpoint pop_front (current_doc : list str) (total _len separator_len : Z)
    : result (list str * Z) :=
  let still :=
    ((total >? _chunk_overlap self)
     || ((total + _len + (if (0 <? length current_doc)%nat then separator_len else 0)
          >? _chunk_size self) && (total >? 0)))%Z in
  match current_doc with
  | [] => if still then Raise IndexError else Ok ([], total)
  | d0 :: rest =>
      if still
      then pop_front rest
             (total - (len d0 + (if (1 <? length current_doc)%nat
                                 then separator_len else 0)))%Z
             _len separator_len
      else Ok (current_doc, total)
  end.

(** The [for d in splits] loop of [_merge_splits]. *)
Fixpoint merge_loop (separator : str) (splits docs current_doc : list str)
    (total : Z) : result (list str) :=
  match splits with
  | [] => Ok (append_doc docs (_join_docs current_doc separator))
  | d :: rest =>
      let separator_len := len separator in
      let _len := len d in
      let? st :=
        if ((total + _len + (if (0 <? length current_doc)%nat
                             then separator_len else 0)
             >? _chunk_size self)%Z
            && (0 <? length current_doc)%nat)
        then
          let docs' := append_doc docs (_join_docs current_doc separator) in
          let? ct := pop_front current_doc total _len separator_len in
          Ok (docs', fst ct, snd ct)
        else Ok (docs, current_doc, total) in
      let '(docs1, current1, total1) := st in
      let current2 := current1 ++ [d] in
      merge_loop separator rest docs1 current2
        (total1 + _len + (if (1 <? length current2)%nat then separator_len else 0))%Z
  end.

Definition _merge_splits (splits : list str) (separator : str) : result (list str) :=
  merge_loop separator splits [] [] 0%Z.

Definition flush (good final : list str) : result (list str) :=
  match good with
  | [] => Ok final
  | _ => let? merged := _merge_splits good [] in Ok (final ++ merged)
  end.

(** The [for s in splits] loop of [_split_text]; [recur] splits a piece
    that is too long with the remaining separators, when there are any. *)
Fixpoint walk (recur : option (str -> result (list str)))
    (splits good final : list str) : result (list str) :=
  match splits with
  | [] => flush good final
  | s :: more =>
      if (len s <? _chunk_size self)%Z
      then walk recur more (good ++ [s]) final
      else
        let? final1 := flush good final in
        match recur with
        | None => walk recur more [] (final1 ++ [s])
        | Some split_again =>
            let? other_info := split_again s in
            walk recur more [] (final1 ++ other_info)
        end
  end.

(** [_split_text(text, separators)].  The search for the separator and the
    call itself go down the same list: a separator that does not occur in
    [text] is passed over. *)
Fixpoint _split_text (separators : list str) (text : str) : result (list str) :=
  match separators with
  | [] => Raise IndexError
  | s :: rest =>
      if decide (s = []) then
        walk None (_split_text_with_regex text []) [] []
      else if contains s text then
        walk (match rest with
              | [] => None
              | _ => Some (_split_text rest)
              end)
             (_split_text_with_regex text s) [] []
      else
        match rest with
        | [] => walk None (_split_text_with_regex text s) [] []
        | _ => _split_text rest text
        end
  end.

Definition split_text (text : str) : result (list str) :=
  _split_text (_separators self) text.

(** [create_documents], through [split_documents]: the chunks of each
    document, in order, each with the metadata of its document. *)
Fixpoint split_documents_with (documents : list Document) : result (list Document) :=
  match documents with
  | [] => Ok []
  | doc :: rest =>
      let? chunks := split_text (page_content doc) in
      let? others := split_documents_with rest in
      Ok (map (fun chunk => mkDocument chunk (metadata doc)) chunks ++ others)
  end.

End Splitter.

(** [RecursiveCharacterTextSplitter(chunk_size=size, chunk_overlap=overlap)
      .split_documents(documents)] *)
Definition split_documents (size overlap : Z) (documents : list Document)
    : result (list Document) :=
  let? splitter := RecursiveCharacterTextSplitter size overlap in
  split_documents_with splitter documents.

End TextSplitter.

(** ** src/chunking/document_chunking.py *)

Record DocumentChunkingConfig : Type := mkConfig {
  chunks_dir : str;
  chunks_file : str;
  chunk_size : Z;
  chunk_overlap : Z;
}.

Module DocumentChunking.

(** [str(root / name)] for a pathlib path. *)
Definition path_join (root name : str) : str :=
  if decide (root = py "/") then root ++ name else root ++ py "/" ++ name.

(** The dataclass defaults; [PROJECT_ROOT] is the directory two levels
    above the module's file. *)
Definition default_config (PROJECT_ROOT : str) : DocumentChunkingConfig :=
  mkConfig
    (path_join (path_join PROJECT_ROOT (py "artifacts")) (py "chunks"))
    (path_join (path_join (path_join PROJECT_ROOT (py "artifacts")) (py "chunks"))
               (py "chunks.csv"))
    1000 200.

(** The dict built for one chunk:
    text, source (default ""), doc_type (default ""). *)
Definition chunk_record (chunk : Document) : list (str * str) :=
  [ (py "text", page_content chunk);
    (py "source", default [] (metadata chunk !! py "source"));
    (py "doc_type", default [] (metadata chunk !! py "doc_type")) ].

Section Chunker.

(** [RecursiveCharacterTextSplitter(chunk_size, chunk_overlap)
       .split_documents(documents)] of langchain_text_splitters. *)
Variable split_documents : Z -> Z -> list Document -> result (list Document).

(** [df.to_csv(path, index=False)]: the text pandas writes for a table. *)
Variable to_csv : DataFrame -> str.

Variable config : DocumentChunkingConfig.

Definition create_chunks (documents : list Document) : M (str * list Document) :=
  try_except
    (match documents with
     | [] =>
         let* _ := os.makedirs (chunks_dir config) in
         let empty_df :=
           pd.DataFrame_columns [py "text"; py "source"; py "doc_type"] in
         let* _ := os.write_file (chunks_file config) (to_csv empty_df) in
         ret (chunks_file config, [])
     | _ =>
         let* chunks :=
           lift (split_documents (chunk_size config) (chunk_overlap config)
                                 documents) in
         let* _ := os.makedirs (chunks_dir config) in
         let df := pd.DataFrame_records (map chunk_record chunks) in
         let* _ := os.write_file (chunks_file config) (to_csv df) in
         ret (chunks_file config, chunks)
     end)
    (fun e => raise (CustomException e)).

Definition create_chunks_in_memory (documents : list Document) : M (list Document) :=
  try_except
    (match documents with
     | [] => ret []
     | _ =>
         let* chunks :=
           lift (split_documents (chunk_size config) (chunk_overlap config)
                                 documents) in
         ret chunks
     end)
    (fun e => raise (CustomException e)).

End Chunker.

End DocumentChunking.

(** ** src/flashcards/flashcard_pipeline.py *)

(** The dict with the keys "question" and "answer" the parser builds. *)
Record card : Type := mkcard {
  question : str;
  answer : str;
}.

Record FlashcardPipelineState : Type := mkPipeline {
  chunker : DocumentChunkingConfig;     (* self.chunker.config *)
  max_cards : Z;                        (* self.max_cards *)
}.

Module FlashcardPipeline.

(** [__init__(model_name, max_cards=20)]; the chunker gets the default
    configuration. *)
Definition __init__ (PROJECT_ROOT : str) (max_cards : Z) : FlashcardPipelineState :=
  mkPipeline (DocumentChunking.default_config PROJECT_ROOT) max_cards.

Definition default_max_cards : Z := 20.

Definition quoted (s : str) : str := dquote :: s ++ [dquote].

Definition example_card (q a : string) : str :=
  py "    {" ++ quoted (py "question") ++ py ": " ++ quoted (py q) ++ py ", "
  ++ quoted (py "answer") ++ py ": " ++ quoted (py a) ++ py "}".

(** The f-string of [_build_prompt], line by line. *)
Definition _build_prompt (text : str) (num_cards : Z) : str :=
  join [nl]
    [ [];
      py "You are a helpful study assistant.";
      [];
      py "Given the following document text, create at most "
        ++ str_of_int num_cards ++ py " high-quality flashcards.";
      py "Each flashcard must contain:";
      py "- a question (front of the card)";
      py "- a short, precise answer (back of the card)";
      [];
      py "Return ONLY valid JSON in exactly this format:";
      [];
      py "{";
      py "  " ++ quoted (py "cards") ++ py ": [";
      example_card "Question 1?" "Answer 1." ++ py ",";
      example_card "Question 2?" "Answer 2.";
      py "  ]";
      py "}";
      [];
      py "Do not include explanations, comments, or any extra keys.";
      [];
      py "Document text:";
      [dquote; dquote; dquote] ++ text ++ [dquote; dquote; dquote];
      [] ].

(** The local variable [json_str] of [_parse_flashcards]. *)
Definition json_str (raw : str) : str :=
  let start := find lbrace raw in
  let end_ := rfind rbrace raw in
  if (negb (start =? -1) && negb (end_ =? -1) && (end_ >? start))%Z
  then slice raw start (end_ + 1)
  else raw.

(** The [for item in cards_raw] loop; [cards] is the list built so far. *)
Fixpoint collect_cards (items : list json) (cards : list card) : result (list card) :=
  match items with
  | [] => Ok cards
  | item :: rest =>
      let? qv := Json.get item (py "question") (JStr []) in
      let? q := Json.strip_method qv in
      let? av := Json.get item (py "answer") (JStr []) in
      let? a := Json.strip_method av in
      collect_cards rest
        (if truthy q && truthy a then cards ++ [mkcard q a] else cards)
  end.

Section Pipeline.

(** [json.loads]: the decoded value, or [None] for [json.JSONDecodeError]. *)
Variable json_loads : str -> option json.

(** The text of the model's reply to a prompt ([response.content], or
    [str(response)]); the call may raise. *)
Variable llm : World -> str -> result str.

Variable split_documents : Z -> Z -> list Document -> result (list Document).

Definition _parse_flashcards (raw : str) : result (list card) :=
  match json_loads (json_str raw) with
  | None => Raise JSONDecodeError
  | Some data =>
      let? cards_raw := Json.get data (py "cards") (JList []) in
      let? items := Json.iter cards_raw in
      collect_cards items []
  end.

(** [self.llm.invoke(prompt)] *)
Definition llm_invoke (prompt : str) : M str :=
  fun w => (llm w prompt, set_prompts (cons prompt) w).

(** [max_cards or self.max_cards] for [max_cards : int | None]. *)
Definition or_default (max_cards : option Z) (self_max_cards : Z) : Z :=
  match max_cards with
  | Some n => if (n =? 0)%Z then self_max_cards else n
  | None => self_max_cards
  end.

Definition generate_from_docs (self : FlashcardPipelineState)
    (documents : list Document) (max_cards_arg : option Z) : M (list card) :=
  match documents with
  | [] => ret []
  | _ =>
      let* chunks :=
        DocumentChunking.create_chunks_in_memory split_documents (chunker self)
          documents in
      match chunks with
      | [] => ret []
      | _ =>
          let combined_text := join [nl; nl] (map page_content chunks) in
          let num_cards := or_default max_cards_arg (max_cards self) in
          let prompt := _build_prompt combined_text num_cards in
          let* raw_output := llm_invoke prompt in
          let* cards := lift (_parse_flashcards raw_output) in
          ret cards
      end
  end.

End Pipeline.

End FlashcardPipeline.

(** ** src/ingestion/load_documents.py *)

Module Ingestion.

Section Loader.

(** [PyPDFLoader(path).load()] on a file with the given contents. *)
Variable pdf_load : str -> str -> result (list Document).

(** [doc.metadata.setdefault("doc_type", doc_type)] *)
Definition setdefault_doc_type (doc_type : str) (doc : Document) : Document :=
  match metadata doc !! py "doc_type" with
  | Some _ => doc
  | None => mkDocument (page_content doc) (<[py "doc_type" := doc_type]> (metadata doc))
  end.

Definition load_uploaded_pdf (path doc_type : str) : M (list Document) :=
  let* present := os.exists_ path in
  if negb present then raise FileNotFoundError
  else
    let* docs := (fun w => match files w !! path with
                           | Some contents => (pdf_load path contents, w)
                           | None => (Raise (LibraryError path), w)   (* a directory *)
                           end) in
    ret (map (setdefault_doc_type doc_type) docs).

End Loader.

Section BulkLoader.

(** [base_dir.glob("*")]: the entries of a directory, as paths, in the
    order the file system gives them. *)
Variable glob_star : World -> str -> list str.

(** [DirectoryLoader(folder, glob="**/*.pdf", loader_cls=PyPDFLoader).load()] *)
Variable directory_load : World -> str -> result (list Document).

(** The module constant [DATA_DIR], the directory data under the root. *)
Variable DATA_DIR : str.

(** [Path(p).name]: the last component of a path. *)
Definition path_name (p : str) : str :=
  rev (take_while (fun c => negb (c =? 47)%N) (rev p)).

(** [doc.metadata["doc_type"] = doc_type] *)
Definition set_doc_type (doc_type : str) (doc : Document) : Document :=
  mkDocument (page_content doc) (<[py "doc_type" := doc_type]> (metadata doc)).

(** [f.is_dir()] *)
Definition is_dir (w : World) (path : str) : bool := bool_decide (path ∈ dirs w).

(** The [for folder in folders] loop; [documents] is the list built so far. *)
Fixpoint load_folders (folders : list str) (documents : list Document)
    : M (list Document) :=
  match folders with
  | [] => ret documents
  | folder :: rest =>
      let doc_type := path_name folder in
      let* folder_docs := (fun w => (directory_load w folder, w)) in
      load_folders rest (documents ++ map (set_doc_type doc_type) folder_docs)
  end.

Definition fetch_documents (base_dir : option str) : M (list Document) :=
  let base_dir := default DATA_DIR base_dir in
  let* present := os.exists_ base_dir in
  if negb present then raise FileNotFoundError
  else
    let* folders :=
      (fun w => (Ok (List.filter (is_dir w) (glob_star w base_dir)), w)) in
    load_folders folders [].

End BulkLoader.

End Ingestion.

(** ** src/server/schemas.py *)

Module Schemas.

Record ChatMessage : Type := mkChatMessage {
  role : str;                     (* Literal["user", "assistant"] *)
  content : str;
}.

Record AskRequest : Type := mkAskRequest {
  question : str;                 (* Field(..., min_length=1) *)
  doc_type : option str;
  history : list ChatMessage;
}.

Record SourceDocument : Type := mkSourceDocument {
  source : option str;
  source_doc_type : option str;   (* the field doc_type *)
  preview : str;
}.

Record AskResponse : Type := mkAskResponse {
  answer : str;
  sources : list SourceDocument;
}.

Record Flashcard : Type := mkFlashcard {
  flashcard_question : str;       (* the field question *)
  flashcard_answer : str;         (* the field answer *)
}.

Record FlashcardResponse : Type := mkFlashcardResponse {
  flashcards : list Flashcard;
}.

(** The fields of the JSON body of POST /ask, each of its declared type. *)
Record AskBody : Type := mkAskBody {
  body_question : str;
  body_doc_type : option str;
  body_history : list (str * str);    (* role, content *)
}.

Definition validate_ChatMessage (m : str * str) : result ChatMessage :=
  if decide (fst m = py "user" \/ fst m = py "assistant")
  then Ok (mkChatMessage (fst m) (snd m))
  else Raise ValidationError.

Fixpoint validate_history (l : list (str * str)) : result (list ChatMessage) :=
  match l with
  | [] => Ok []
  | m :: l' =>
      let? m' := validate_ChatMessage m in
      let? rest := validate_history l' in
      Ok (m' :: rest)
  end.

(** The checks pydantic makes when it builds an [AskRequest]. *)
Definition validate_AskRequest (body : AskBody) : result AskRequest :=
  if (length (body_question body) <? 1)%nat then Raise ValidationError
  else
    let? h := validate_history (body_history body) in
    Ok (mkAskRequest (body_question body) (body_doc_type body) h).

End Schemas.

(** ** src/server/app.py *)

(** What the framework sends back for a route. *)
Inductive http_response (A : Type) : Type :=
| HTTP_200 (body : A)
| HTTP_422                              (* the request failed validation *)
| HTTP_error (status : Z) (cause : exn).    (* an HTTPException *)
Arguments HTTP_200 {A} body.
Arguments HTTP_422 {A}.
Arguments HTTP_error {A} status cause.

Module App.

(** The keys of a parsed card, before [Schemas] brings in its own fields. *)
Definition card_question : card -> str := question.
Definition card_answer : card -> str := answer.

Import Schemas.

Definition _build_sources (docs : list Document) (max_items : nat) : list SourceDocument :=
  map (fun doc =>
         let metadata := metadata doc in       (* doc.metadata or {} *)
         let preview := replace nl space (strip (prefix 280 (page_content doc))) in
         mkSourceDocument (metadata !! py "source") (metadata !! py "doc_type") preview)
      (firstn max_items docs).

(** The response of a route whose endpoint ended with [r]. *)
Definition respond {A} (r : result A) : http_response A :=
  match r with
  | Ok body => HTTP_200 body
  | Raise (HTTPException status cause) => HTTP_error status cause
  | Raise e => HTTP_error 500 e
  end.

Section Server.

(** [RAGPipeline.answer_question(question, history, doc_type)] of
    src/pipeline/rag_pipeline.py, which is not among the sources: the answer
    and the supporting documents; the call may raise. *)
Variable answer_question :
  World -> str -> list (str * str) -> option str -> result (str * list Document).

Variable json_loads : str -> option json.
Variable llm : World -> str -> result str.
Variable split_documents : Z -> Z -> list Document -> result (list Document).
Variable pdf_load : str -> str -> result (list Document).

(** The name [tempfile.NamedTemporaryFile(suffix=".pdf")] picks. *)
Variable mktemp : World -> str.

Variable PROJECT_ROOT : str.

(** dependencies.py: [FlashcardPipeline()], built once. *)
Definition get_flashcard_pipeline : FlashcardPipelineState :=
  FlashcardPipeline.__init__ PROJECT_ROOT FlashcardPipeline.default_max_cards.

(** [pipeline.answer_question(...)] on the shared RAG pipeline. *)
Definition pipeline_answer_question (q : str) (h : list (str * str))
    (dt : option str) : M (str * list Document) :=
  fun w => (answer_question w q h dt, set_questions (cons q) w).

Definition ask_question (payload : AskRequest) : M AskResponse :=
  try_except
    (let history := map (fun msg => (role msg, content msg)) (history payload) in
     let* r := pipeline_answer_question (question payload) history (doc_type payload) in
     let sources := _build_sources (snd r) 3 in
     ret (mkAskResponse (fst r) sources))
    (fun exc => raise (HTTPException 500 exc)).

(** POST /ask: the body is validated first; the endpoint runs only on a
    valid request. *)
Definition post_ask (body : AskBody) : World -> http_response AskResponse * World :=
  fun w => match validate_AskRequest body with
           | Raise _ => (HTTP_422, w)
           | Ok payload => let (r, w') := ask_question payload w in (respond r, w')
           end.

(** [with tempfile.NamedTemporaryFile(delete=False, suffix=".pdf") as tmp]:
    the file is created, empty, unless the system refuses it, and then there
    is no file. *)
Definition NamedTemporaryFile : M str :=
  fun w => let name := mktemp w in
           match write_fault w name [] with
           | Some f => (Raise (fault_exn f), w)
           | None => (Ok name, set_tempfiles (cons name) (set_files (<[name := []]>) w))
           end.

(** [file_read] is the outcome of [await file.read()]. *)
Definition generate_flashcards (file_read : result str) (max_cards : Z)
    : M FlashcardResponse :=
  let flashcard_pipeline := get_flashcard_pipeline in
  try_except
    (let* contents := lift file_read in
     let* tmp_path :=
       (let* tmp := NamedTemporaryFile in
        let* _ := os.write_file tmp contents in
        ret tmp) in
     try_finally
       (let* docs :=
          Ingestion.load_uploaded_pdf pdf_load tmp_path (py "flashcard_upload") in
        let* cards :=
          FlashcardPipeline.generate_from_docs json_loads llm split_documents
            flashcard_pipeline docs (Some max_cards) in
        let flashcards := map (fun c => mkFlashcard (card_question c) (card_answer c)) cards in
        ret (mkFlashcardResponse flashcards))
       (os.remove tmp_path))
    (fun exc => raise (HTTPException 500 exc)).

(** POST /flashcards *)
Definition post_flashcards (file_read : result str) (max_cards : Z)
    : World -> http_response FlashcardResponse * World :=
  fun w => let (r, w') := generate_flashcards file_read max_cards w in (respond r, w').

End Server.

End App.

(** ** src/server/gradio_ui.py *)

Module GradioUI.

Import Schemas.

(** An entry of the chat history as Gradio hands it over.  The values read
    from it are strings or None, as the annotations of the module have
    them. *)
Inductive entry : Type :=
| EntryDict (role content : option str)       (* a dict: its "role" and "content" *)
| EntryPair (user_msg bot_msg : option str)   (* a list or tuple of two *)
| EntryOther.                                 (* anything else *)

(** Truth value of a [str] or None. *)
Definition truthy_opt (v : option str) : bool :=
  match v with
  | Some s => truthy s
  | None => false
  end.

(** [v or d] for [v : str | None]. *)
Definition or_str (v : option str) (d : str) : str :=
  match v with
  | Some s => if truthy s then s else d
  | None => d
  end.

(** What one pass of the loop of [_history_to_messages] appends: the dicts
    with the keys "role" and "content", as pairs. *)
Definition entry_messages (e : entry) : list (str * str) :=
  match e with
  | EntryDict role content =>
      match role, content with
      | Some r, Some c => if truthy r then [(r, c)] else []
      | _, _ => []
      end
  | EntryPair user_msg bot_msg =>
      (match user_msg with
       | Some u => if truthy u then [(py "user", u)] else []
       | None => []
       end)
      ++ (match bot_msg with
          | Some b => if truthy b then [(py "assistant", b)] else []
          | None => []
          end)
  | EntryOther => []
  end.

Definition _history_to_messages (history : option (list entry)) : list (str * str) :=
  match history with
  | None => []
  | Some h => flat_map entry_messages h
  end.

(** The line [f"{idx}. {doc_label} :: {source_name}"] *)
Definition source_line (idx : Z) (src : SourceDocument) : str :=
  let doc_label := or_str (source_doc_type src) (py "document") in
  let source_name := or_str (source src) (py "N/A") in
  str_of_int idx ++ py ". " ++ doc_label ++ py " :: " ++ source_name.

(** The [for idx, src in enumerate(response.sources, start=1)] loop. *)
Fixpoint source_lines (idx : Z) (sources : list SourceDocument) : list str :=
  match sources with
  | [] => []
  | src :: rest => source_line idx src :: source_lines (idx + 1) rest
  end.

Definition _format_answer (response : AskResponse) : str :=
  let answer_lines :=
    [strip (answer response)]
    ++ match sources response with
       | [] => []
       | srcs => [ [] ; py "Sources:" ] ++ source_lines 1 srcs
       end in
  join [nl] answer_lines.

(** What [AskRequest(...).model_dump()] puts on the wire. *)
Definition model_dump (r : AskRequest) : AskBody :=
  mkAskBody (question r) (doc_type r)
            (map (fun m => (role m, content m)) (history r)).

Section Chat.

(** [client.post(url, json=payload)]: the response of the server; the call
    may raise. *)
Variable post : str -> AskBody -> M (http_response AskResponse).

(** [str(exc)] *)
Variable exn_str : exn -> str.

(** [resp.raise_for_status()], then the [AskResponse] built from the JSON
    body. *)
Definition read_response (resp : http_response AskResponse) : result AskResponse :=
  match resp with
  | HTTP_200 body => Ok body
  | HTTP_422 => Raise (LibraryError (py "HTTPStatusError"))
  | HTTP_error status cause =>
      if (400 <=? status)%Z then Raise (LibraryError (py "HTTPStatusError"))
      else Raise ValidationError        (* a body without answer and sources *)
  end.

Definition _chat_response (message : str) (history : option (list entry))
    (doc_type api_url : str) : M (list (str * str)) :=
  let* payload :=
    lift (validate_AskRequest
            (mkAskBody message
                       (if truthy doc_type then Some doc_type else None)
                       (_history_to_messages history))) in
  let* answer :=
    try_except
      (let* resp := post (rstrip_char 47%N api_url ++ py "/ask") (model_dump payload) in
       let* ask_response := lift (read_response resp) in
       ret (_format_answer ask_response))
      (fun exc => ret (py "Error talking to API: " ++ exn_str exc)) in
  let updated_history := _history_to_messages history in
  ret (updated_history ++ [(py "user", message)] ++ [(py "assistant", answer)]).

(** The function [_respond] of [build_interface]. *)
Definition _respond (default_api_url : str) (user_message : str)
    (chat_history : option (list entry)) (doc_type_value api_url_value : str)
    : M (list (str * str)) :=
  _chat_response user_message
    (Some (default [] chat_history))      (* chat_history or [] *)
    doc_type_value
    (if truthy api_url_value then api_url_value else default_api_url).

End Chat.

End GradioUI.

(* ===================================================================== *)
(** * Terms of the properties, and sample inputs                          *)
(* ===================================================================== *)

Module OsTerms.

(** World [w'] is world [w] with, at most, more directories. *)
Definition adds_dirs (w w' : World) : Prop :=
  files w' = files w /\ dirs w ⊆ dirs w'
  /\ tempfiles w' = tempfiles w /\ prompts w' = prompts w
  /\ questions w' = questions w /\ write_fault w' = write_fault w.

(** The last component of a path, trailing slashes apart. *)
Definition last_component (p : str) : str :=
  let (head, tail) := os.path_split p in
  if truthy tail then tail else snd (os.path_split head).

End OsTerms.

Module FlashcardTerms.

Import FlashcardPipeline.

(** What the filter reads under key [k] of an entry: the trimmed string,
    the empty string when the key is absent, nothing when the value is not
    a string. *)
Definition entry_field (k : str) (d : list (str * json)) : option str :=
  match Json.dict_lookup k d with
  | None => Some []
  | Some (JStr s) => Some (strip s)
  | Some _ => None
  end.

(** An entry the filter can read: an object whose "question" and "answer",
    when present, are strings. *)
Definition entry_card (item : json) : option card :=
  match item with
  | JDict d =>
      match entry_field (py "question") d, entry_field (py "answer") d with
      | Some q, Some a => Some (mkcard q a)
      | _, _ => None
      end
  | _ => None
  end.

(** Both texts non-empty. *)
Definition kept (c : card) : bool := truthy (question c) && truthy (answer c).

(** The prompt [generate_from_docs] builds from the chunks. *)
Definition prompt_for (self : FlashcardPipelineState) (chunks : list Document)
    (max_cards_arg : option Z) : str :=
  _build_prompt (join [nl; nl] (map page_content chunks))
                (or_default max_cards_arg (max_cards self)).

(** The sentence of the prompt that states the number of cards. *)
Definition request_sentence (num_cards : Z) : str :=
  py "create at most " ++ str_of_int num_cards ++ py " high-quality flashcards.".

Definition prompt_before : str :=
  [nl] ++ py "You are a helpful study assistant." ++ [nl; nl]
  ++ py "Given the following document text, ".

End FlashcardTerms.

Module AppTerms.

Import Schemas.

(** Each summary against the document it was made from. *)
Definition summarises (doc : Document) (s : SourceDocument) : Prop :=
  source s = metadata doc !! py "source"
  /\ source_doc_type s = metadata doc !! py "doc_type"
  /\ preview s = replace nl space (strip (prefix 280 (page_content doc)))
  /\ length (preview s) <= 280
  /\ ~ In nl (preview s).

End AppTerms.

Module CsvTerms.

Import Csv.



End CsvTerms.

Module ChunkingTerms.

Import DocumentChunking.

(** The values of one chunk, as a row of the snapshot. *)
Definition chunk_row (chunk : Document) : list str :=
  [ page_content chunk;
    default [] (metadata chunk !! py "source");
    default [] (metadata chunk !! py "doc_type") ].

Definition header : list str := [py "text"; py "source"; py "doc_type"].

(** The chunks [create_chunks] works with: none for no document, those of
    the splitter otherwise. *)
Definition chunks_for
    (split_documents : Z -> Z -> list Document -> result (list Document))
    (config : DocumentChunkingConfig) (docs : list Document)
    : result (list Document) :=
  match docs with
  | [] => Ok []
  | _ => split_documents (chunk_size config) (chunk_overlap config) docs
  end.

(** The table [create_chunks] hands to the writer. *)
Definition snapshot_table (docs chunks : list Document) : DataFrame :=
  match docs with
  | [] => mkDataFrame header []
  | _ => pd.DataFrame_records (map chunk_record chunks)
  end.

End ChunkingTerms.

Module SplitterTerms.

Import TextSplitter.

(** A text with a character that is not white space. *)
Definition nonblank (s : str) : Prop := Exists (fun c => isspace c = false) s.

Definition sumlen (l : list str) : Z := fold_right (fun s acc => (len s + acc)%Z) 0%Z l.

Section Bounds.

Variable self : splitter.

(** A chunk of at most [chunk_size] characters. *)
Definition fits (s : str) : Prop := (len s <= _chunk_size self)%Z.

(** A piece short enough to be merged with its neighbours. *)
Definition short (s : str) : Prop := (len s < _chunk_size self)%Z.

(** What a list of chunks made from pieces must satisfy: every chunk fits,
    and there is a chunk exactly when a piece is not blank. *)
Definition chunks_of (pieces_nonblank : Prop) (before out : list str) : Prop :=
  (Forall fits before -> Forall fits out)
  /\ (before <> [] \/ pieces_nonblank -> out <> [])
  /\ (~ pieces_nonblank -> out = before).

(** The splitting of a piece that is too long. *)
Definition recur_ok (recur : option (str -> result (list str))) : Prop :=
  match recur with
  | None => True
  | Some split_again =>
      forall s, exists out, split_again s = Ok out
                            /\ chunks_of (nonblank s) [] out
  end.

End Bounds.

End SplitterTerms.

(** Stand-ins for the collaborators and inputs for runs on concrete data. *)
Module Samples.

Import FlashcardPipeline Schemas.


(** A reply whose only entry is the number 5. *)
Definition malformed_entry_reply : str :=
  py "{" ++ quoted (py "cards") ++ py ": [5]}".

(** A reply that is valid JSON but an array. *)
Definition array_reply : str := py "[1, 2]".

(** A reply that is an object whose "cards" value is a number. *)
Definition number_cards_reply : str :=
  py "{" ++ quoted (py "cards") ++ py ": 5}".

(** The second example of the specification: an empty question, then a
    complete card. *)
Definition two_entries_reply : str :=
  py "{" ++ quoted (py "cards") ++ py ":[{"
  ++ quoted (py "question") ++ py ":" ++ quoted [] ++ py ","
  ++ quoted (py "answer") ++ py ":" ++ quoted (py "A") ++ py "},{"
  ++ quoted (py "question") ++ py ":" ++ quoted (py "Q2") ++ py ","
  ++ quoted (py "answer") ++ py ":" ++ quoted (py "A2") ++ py "}]}".

(** Its two entries, decoded. *)
Definition two_entries : list json :=
  [ JDict [(py "question", JStr []); (py "answer", JStr (py "A"))];
    JDict [(py "question", JStr (py "Q2")); (py "answer", JStr (py "A2"))] ].

(** A splitter that returns the documents unchanged, a model that replies
    with an empty object: stand-ins for the collaborators in runs on
    concrete inputs. *)
Definition split_identity (size overlap : Z) (docs : list Document)
    : result (list Document) := Ok docs.

Definition llm_empty_object (w : World) (prompt : str) : result str := Ok (py "{}").

Definition interest_doc : Document :=
  mkDocument (py "Interest rates are fixed for 12 months.") ∅.

(** An orchestrator that answers every question with four documents, and a
    request for it. *)
Definition four_docs : list Document :=
  [ mkDocument (py "Rates are fixed." ++ [nl] ++ py "For 12 months.")
      (<[py "source" := py "terms.pdf"]> (<[py "doc_type" := py "product_terms"]> ∅));
    mkDocument (py "  Fees apply. ") (<[py "source" := py "fees.pdf"]> ∅);
    mkDocument [] ∅;
    mkDocument (py "Not shown.") ∅ ].

Definition rag_four_docs (w : World) (q : str) (h : list (str * str))
    (dt : option str) : result (str * list Document) :=
  Ok (py "Twelve months.", four_docs).

Definition rates_request : AskRequest :=
  mkAskRequest (py "How long are rates fixed?") None
    [mkChatMessage (py "user") (py "Hello")].

(** A loader that makes one document of the file's contents, a temporary
    name, and a model that fails. *)
Definition pdf_one_page (path contents : str) : result (list Document) :=
  Ok [mkDocument contents ∅].

Definition mktemp_fixed (w : World) : str := py "/tmp/tmpk3v9.pdf".

Definition llm_unreachable (w : World) (prompt : str) : result str :=
  Raise (LibraryError (py "connection refused")).



Definition three_words : str :=
  repeat 97%N 600 ++ [space] ++ repeat 98%N 600 ++ [space] ++ repeat 99%N 600.

End Samples.

(** Terms of the further properties. *)
Module MoreTerms.

(** A card as the parser may return it: both texts non-empty, with no
    white space at either end. *)
Definition trimmed_card (c : card) : Prop :=
  question c <> [] /\ answer c <> []
  /\ strip (question c) = question c /\ strip (answer c) = answer c.

(** Document [d] is document [d0] with "doc_type" set to [doc_type] where
    [d0] had none: the same text, the same other metadata. *)
Definition tagged_by_default (doc_type : str) (d0 d : Document) : Prop :=
  page_content d = page_content d0
  /\ metadata d !! py "doc_type"
     = Some (default doc_type (metadata d0 !! py "doc_type"))
  /\ (forall k, k <> py "doc_type" -> metadata d !! k = metadata d0 !! k).

(** The documents of the folders, each with the name of its folder as
    "doc_type". *)
Fixpoint tagged_by_folder (folders : list str) (loaded : list (list Document))
    : list Document :=
  match folders, loaded with
  | folder :: folders', docs :: loaded' =>
      map (Ingestion.set_doc_type (Ingestion.path_name folder)) docs
      ++ tagged_by_folder folders' loaded'
  | _, _ => []
  end.

Import Schemas.

(** A role the schema accepts. *)
Definition valid_role (r : str) : Prop := r = py "user" \/ r = py "assistant".

(** A body that passes the checks of [AskRequest]. *)
Definition valid_body (body : AskBody) : Prop :=
  body_question body <> []
  /\ Forall (fun m => valid_role (fst m)) (body_history body).

(** The request with the fields of the body. *)
Definition request_of (body : AskBody) : AskRequest :=
  mkAskRequest (body_question body) (body_doc_type body)
    (map (fun m => mkChatMessage (fst m) (snd m)) (body_history body)).

(** The world once the upload has been written to its temporary file. *)
Definition upload_world (mktemp : World -> str) (contents : str) (w : World) : World :=
  set_files (<[mktemp w := contents]>)
    (set_tempfiles (cons (mktemp w)) (set_files (<[mktemp w := []]>) w)).

(** The world once the temporary file has been created, still empty. *)
Definition created_world (mktemp : World -> str) (w : World) : World :=
  set_tempfiles (cons (mktemp w)) (set_files (<[mktemp w := []]>) w).

(** What a write that went wrong has left in a file that was empty. *)
Definition left_by (f : fault) : str :=
  match f with
  | Refused _ => []
  | Partial _ written => written
  end.

(** The outcome of creating the temporary file and writing the upload to
    it. *)
Definition upload_saved (mktemp : World -> str) (contents : str) (w : World)
    : result unit :=
  match write_fault w (mktemp w) [] with
  | Some f => Raise (fault_exn f)
  | None =>
      match write_fault w (mktemp w) contents with
      | Some f => Raise (fault_exn f)
      | None => Ok tt
      end
  end.

(** The flashcard of the response for a card of the parser. *)
Definition flashcard_of (c : card) : Flashcard :=
  mkFlashcard (App.card_question c) (App.card_answer c).

(** What the endpoint returns for the outcome of a step: the value, or the
    exception inside an HTTPException with status 500. *)
Definition or_500 {A} (r : result A) : result A :=
  match r with
  | Ok a => Ok a
  | Raise e => Raise (HTTPException 500 e)
  end.

(** The body of the inner try block of [generate_flashcards]. *)
Definition try_body (json_loads : str -> option json)
    (llm : World -> str -> result str)
    (split_documents : Z -> Z -> list Document -> result (list Document))
    (pdf_load : str -> str -> result (list Document))
    (PROJECT_ROOT tmp_path : str) (max_cards : Z) : M FlashcardResponse :=
  let* docs := Ingestion.load_uploaded_pdf pdf_load tmp_path (py "flashcard_upload") in
  let* cards :=
    FlashcardPipeline.generate_from_docs json_loads llm split_documents
      (App.get_flashcard_pipeline PROJECT_ROOT) docs (Some max_cards) in
  ret (mkFlashcardResponse (map flashcard_of cards)).

(** A message of the history, as the dict Gradio hands back. *)
Definition as_entry (m : str * str) : GradioUI.entry :=
  GradioUI.EntryDict (Some (fst m)) (Some (snd m)).

(** An entry that is not a dict. *)
Definition not_dict (e : GradioUI.entry) : Prop :=
  match e with
  | GradioUI.EntryDict _ _ => False
  | _ => True
  end.

(** The body [_chat_response] builds. *)
Definition chat_body (message : str) (history : option (list GradioUI.entry))
    (doc_type : str) : AskBody :=
  mkAskBody message (if truthy doc_type then Some doc_type else None)
            (GradioUI._history_to_messages history).

(** The text of the assistant for the outcome of the request. *)
Definition chat_answer (exn_str : exn -> str)
    (r : result (http_response AskResponse)) : str :=
  match (let? resp := r in GradioUI.read_response resp) with
  | Ok ask_response => GradioUI._format_answer ask_response
  | Raise exc => py "Error talking to API: " ++ exn_str exc
  end.

(** A client whose requests reach the /ask route of the application. *)
Definition app_client
    (answer_question : World -> str -> list (str * str) -> option str
                       -> result (str * list Document))
    (url : str) (body : AskBody) : M (http_response AskResponse) :=
  fun w => let (resp, w') := App.post_ask answer_question body w in (Ok resp, w').

End MoreTerms.

(** Further stand-ins and inputs for runs on concrete data. *)
Module MoreSamples.

Import FlashcardPipeline Schemas.

(** A splitter that fails, and one that returns no chunk. *)
Definition split_fails (size overlap : Z) (docs : list Document)
    : result (list Document) := Raise (LibraryError (py "out of memory")).

Definition split_nothing (size overlap : Z) (docs : list Document)
    : result (list Document) := Ok [].

(** A world in which an earlier run has left a snapshot. *)
Definition stale_world : World :=
  set_files (<[py "/srv/flash/artifacts/chunks/chunks.csv" :=
                 py "text,source,doc_type" ++ [nl]]>) empty_world.

(** A reply whose second entry is the number 5. *)
Definition mixed_reply : str :=
  py "{" ++ quoted (py "cards") ++ py ":[{"
  ++ quoted (py "question") ++ py ":" ++ quoted (py "Q") ++ py ","
  ++ quoted (py "answer") ++ py ":" ++ quoted (py "A") ++ py "}, 5]}".

(** A reply with white space around the texts of its card. *)
Definition padded_reply : str :=
  py "{" ++ quoted (py "cards") ++ py ":[{"
  ++ quoted (py "question") ++ py ":" ++ quoted (py "  What is APR? ") ++ py ","
  ++ quoted (py "answer") ++ py ":" ++ quoted (py " The yearly rate.  ") ++ py "}]}".

(** A data directory with one file and two folders; a listing of it; a
    loader that makes one document for a folder, already tagged. *)
Definition data_world : World :=
  mkWorld (<[py "/srv/flash/data/README.md" := py "Bank documents"]> ∅)
          ({[py "/srv/flash/data"]} ∪ {[py "/srv/flash/data/pricing"]}
           ∪ {[py "/srv/flash/data/product_terms"]})
          [] [] [] (fun _ _ => None).

(** The same directory without the folders. *)
Definition flat_world : World :=
  mkWorld (<[py "/srv/flash/data/README.md" := py "Bank documents"]> ∅)
          {[py "/srv/flash/data"]} [] [] [] (fun _ _ => None).

Definition ls_data (w : World) (dir : str) : list str :=
  [dir ++ py "/README.md"; dir ++ py "/pricing"; dir ++ py "/product_terms"].

Definition ls_readme (w : World) (dir : str) : list str := [dir ++ py "/README.md"].

Definition load_one_draft (w : World) (folder : str) : result (list Document) :=
  Ok [mkDocument folder (<[py "doc_type" := py "draft"]> ∅)].

(** A loader whose second page has a "doc_type" of its own. *)
Definition pdf_two_pages (path contents : str) : result (list Document) :=
  Ok [ mkDocument contents (<[py "source" := path]> ∅);
       mkDocument contents (<[py "doc_type" := py "appendix"]> ∅) ].

(** Histories of the chat: pairs, and a dict with a role the schema does
    not know. *)
Definition pair_history : list GradioUI.entry :=
  [ GradioUI.EntryPair (Some (py "Hello")) (Some (py "Hi, how can I help?"));
    GradioUI.EntryOther;
    GradioUI.EntryPair (Some (py "And the fees?")) None ].

Definition system_history : list GradioUI.entry :=
  [ GradioUI.EntryDict (Some (py "system")) (Some (py "Be brief.")) ].

(** A server that cannot be reached, and the text of an exception. *)
Definition post_refused (url : str) (body : AskBody) : M (http_response AskResponse) :=
  raise (LibraryError (py "connection refused")).

Definition exn_text (e : exn) : str :=
  match e with
  | LibraryError msg => msg
  | _ => py "error"
  end.


(** A disk that is full: a file can be created, and every write of a text
    that is not empty raises and leaves the file empty. *)
Definition no_space (path text : str) : option fault :=
  if truthy text
  then Some (Partial (LibraryError (py "No space left on device")) [])
  else None.

Definition full_disk : World := set_write_fault no_space empty_world.

Definition stale_full_disk : World := set_write_fault no_space stale_world.

End MoreSamples.

(* ===================================================================== *)
(** * Part II: properties                                                 *)
(* ===================================================================== *)

(** ** Strings *)

Module PyFacts.

Lemma index_of_None c s : index_of c s = None <-> ~ In c s.
Proof.
  induction s as [|x s IH]; simpl.
  - tauto.
  - destruct (N.eqb_spec x c) as [->|Hne].
    + split; [discriminate | intros H; exfalso; apply H; now left].
    + destruct (index_of c s) eqn:E.
      * split; [discriminate|]. intros H. exfalso.
        destruct IH as [_ IH]. assert (Hn : ~ In c s) by tauto.
        specialize (IH Hn). discriminate.
      * split; [|reflexivity]. intros _ [H|H]; [congruence|].
        now apply IH.
Qed.


Lemma index_of_Some c s i :
  index_of c s = Some i ->
  s = firstn i s ++ c :: skipn (S i) s /\ ~ In c (firstn i s) /\ i < length s.
Proof.
  revert i; induction s as [|x s IH]; simpl; intros i H; [discriminate|].
  destruct (N.eqb_spec x c) as [->|Hne].
  - injection H as <-. simpl. repeat split; [tauto | lia].
  - destruct (index_of c s) as [j|] eqn:E; [|discriminate].
    injection H as <-. destruct (IH j eq_refl) as (H1 & H2 & H3).
    simpl. repeat split.
    + f_equal. exact H1.
    + intros [H|H]; [congruence | tauto].
    + lia.
Qed.



Lemma find_minus_one c s : find c s = (-1)%Z <-> ~ In c s.
Proof.
  unfold find. destruct (index_of c s) eqn:E.
  - split; [lia|]. intros H. apply index_of_None in H. congruence.
  - split; [|reflexivity]. intros _. now apply index_of_None.
Qed.

Lemma rfind_minus_one c s : rfind c s = (-1)%Z <-> ~ In c s.
Proof.
  unfold rfind. destruct (index_of c (rev s)) eqn:E.
  - pose proof (index_of_Some _ _ _ E) as (Hs & _ & Hlt).
    rewrite length_rev in Hlt.
    split; [intros; lia|]. intros H. exfalso. apply H.
    apply in_rev. rewrite Hs. apply in_or_app. right. now left.
  - split; [|reflexivity]. intros _.
    apply index_of_None in E. now rewrite <- in_rev in E.
Qed.


Lemma lstrip_length s : length (lstrip s) <= length s.
Proof.
  induction s as [|c s IH]; simpl; [lia|].
  destruct (isspace c); simpl; lia.
Qed.

Lemma strip_length s : length (strip s) <= length s.
Proof.
  unfold strip, rstrip. rewrite length_rev.
  etransitivity; [apply lstrip_length|]. rewrite length_rev.
  apply lstrip_length.
Qed.

Lemma replace_length old new s : length (replace old new s) = length s.
Proof. unfold replace. apply length_map. Qed.

Lemma replace_removes old new s : new <> old -> ~ In old (replace old new s).
Proof.
  intros Hne. unfold replace. rewrite in_map_iff. intros (c & Hc & _).
  destruct (N.eqb_spec c old); congruence.
Qed.

End PyFacts.

(** ** Directories *)

Module OsFacts.

Import OsTerms.

Lemma adds_dirs_refl w : adds_dirs w w.
Proof. unfold adds_dirs. repeat split; set_solver. Qed.

Lemma adds_dirs_trans w1 w2 w3 : adds_dirs w1 w2 -> adds_dirs w2 w3 -> adds_dirs w1 w3.
Proof.
  intros (F1 & D1 & T1 & P1 & Q1 & W1) (F2 & D2 & T2 & P2 & Q2 & W2).
  repeat split; try congruence. set_solver.
Qed.

Lemma mkdir_adds path w r w' : os.mkdir path w = (r, w') -> adds_dirs w w'.
Proof.
  unfold os.mkdir.
  repeat match goal with
         | |- context [if ?b then _ else _] => destruct b
         end;
    intros H; injection H as <- <-; try apply adds_dirs_refl.
  repeat split. simpl. set_solver.
Qed.

Lemma makedirs_fuel_adds fuel : forall name w r w',
  os.makedirs_fuel fuel name w = (r, w') -> adds_dirs w w'.
Proof.
  induction fuel as [|fuel IH]; intros name w r w'; cbn [os.makedirs_fuel].
  - unfold raise. intros H. injection H as <- <-. apply adds_dirs_refl.
  - destruct (os.path_split name) as [head0 tail0].
    destruct (if truthy tail0 then (head0, tail0) else os.path_split head0)
      as [head tail].
    assert (Hlast : forall w1 r1 w1',
               try_except (os.mkdir name)
                 (fun e => let* is_dir := os.isdir name in
                           if is_dir then ret tt else raise e) w1 = (r1, w1') ->
               adds_dirs w1 w1').
    { intros w1 r1 w1'. unfold try_except.
      destruct (os.mkdir name w1) as [[u|e] wm] eqn:Em; apply mkdir_adds in Em.
      - intros H. now injection H as <- <-.
      - unfold bind, os.isdir, ret, raise.
        destruct (_ || _); intros H; now injection H as <- <-. }
    set (cond := if truthy head && truthy tail then _ else _).
    assert (Hcond : forall rc wc, cond w = (rc, wc) -> adds_dirs w wc).
    { subst cond. intros rc wc.
      destruct (truthy head && truthy tail);
        [|unfold ret; intros H; injection H as <- <-; apply adds_dirs_refl].
      unfold bind at 1, os.exists_. cbn beta iota.
      destruct (negb _);
        [|unfold ret; intros H; injection H as <- <-; apply adds_dirs_refl].
      unfold bind, try_except.
      destruct (os.makedirs_fuel fuel head w) as [[u|e] wr] eqn:Er;
        apply IH in Er.
      - unfold ret. intros H. now injection H as <- <-.
      - destruct e; unfold ret, raise; intros H; now injection H as <- <-. }
    unfold bind. destruct (cond w) as [[done|e] wc];
      specialize (Hcond _ _ eq_refl).
    + destruct done.
      * unfold ret. intros H. now injection H as <- <-.
      * intros H. apply Hlast in H. eapply adds_dirs_trans; eauto.
    + intros H. now injection H as <- <-.
Qed.

(** [os.makedirs] changes no file: it adds directories, or nothing. *)
Lemma makedirs_adds path w r w' : os.makedirs path w = (r, w') -> adds_dirs w w'.
Proof. apply makedirs_fuel_adds. Qed.

Lemma take_drop_while_length f (s : str) :
  length (take_while f s) + length (drop_while f s) = length s.
Proof.
  induction s as [|c s IH]; simpl; [reflexivity|].
  destruct (f c); simpl; lia.
Qed.

Lemma rstrip_char_length c s : length (rstrip_char c s) <= length s.
Proof.
  unfold rstrip_char. rewrite length_rev.
  pose proof (take_drop_while_length (fun x => (x =? c)%N) (rev s)) as H.
  rewrite length_rev in H. lia.
Qed.

Lemma path_split_length p :
  length (fst (os.path_split p)) + length (snd (os.path_split p)) <= length p.
Proof.
  unfold os.path_split. cbn [fst snd].
  pose proof (take_drop_while_length (fun c => negb (c =? 47)%N) (rev p)) as H.
  rewrite length_rev in H.
  destruct (forallb _ _); rewrite ?length_rev.
  - lia.
  - pose proof (rstrip_char_length 47%N
                  (rev (drop_while (fun c => negb (c =? 47)%N) (rev p)))) as H'.
    rewrite length_rev in H'. lia.
Qed.

(** The head [os.makedirs] recurses on is shorter than the name. *)
Lemma makedirs_head_shorter name head tail :
  (let (head0, tail0) := os.path_split name in
   if truthy tail0 then (head0, tail0) else os.path_split head0) = (head, tail) ->
  truthy tail = true -> length head < length name.
Proof.
  pose proof (path_split_length name) as H1.
  destruct (os.path_split name) as [head0 tail0]. cbn [fst snd] in H1.
  destruct (truthy tail0) eqn:Et.
  - intros H. injection H as <- <-. intros _.
    destruct tail0; [discriminate|]. simpl in H1. lia.
  - intros H Ht. pose proof (path_split_length head0) as H2.
    rewrite H in H2. cbn [fst snd] in H2.
    destruct tail; [discriminate|]. simpl in H2. lia.
Qed.

(** The depth [os.makedirs] allows itself is never used up: more of it
    changes nothing. *)
Lemma makedirs_fuel_enough n : forall m name w,
  length name < n -> length name < m ->
  os.makedirs_fuel n name w = os.makedirs_fuel m name w.
Proof.
  induction n as [|n IH]; intros m name w Hn Hm; [lia|].
  destruct m as [|m]; [lia|]. cbn [os.makedirs_fuel].
  pose proof (makedirs_head_shorter name) as Hshort.
  destruct (os.path_split name) as [head0 tail0].
  destruct (if truthy tail0 then (head0, tail0) else os.path_split head0)
    as [head tail].
  specialize (Hshort head tail eq_refl).
  destruct (truthy head && truthy tail) eqn:Eht; [|reflexivity].
  apply andb_true_iff in Eht. destruct Eht as [_ Et]. specialize (Hshort Et).
  unfold bind, os.exists_, try_except. cbn beta iota.
  destruct (negb _); [|reflexivity].
  rewrite (IH m head w) by lia. reflexivity.
Qed.

Lemma mkdir_outcome path w :
  os.mkdir path w = (Ok tt, set_dirs (fun d => {[os.norm path]} ∪ d) w)
  \/ exists e, os.mkdir path w = (Raise e, w).
Proof.
  unfold os.mkdir.
  repeat match goal with
         | |- context [if ?b then _ else _] => destruct b
         end; eauto.
Qed.

(** When [os.makedirs] returns, the path is a directory. *)
Lemma makedirs_isdir path w w' :
  os.makedirs path w = (Ok tt, w') ->
  last_component path <> py "." ->
  os.isdir path w' = (Ok true, w').
Proof.
  unfold os.makedirs, last_component. cbn [os.makedirs_fuel].
  destruct (os.path_split path) as [head0 tail0].
  destruct (if truthy tail0 then (head0, tail0) else os.path_split head0)
    as [head tail] eqn:Esplit.
  intros Hrun Hdot.
  assert (Htail : tail <> py ".").
  { destruct (truthy tail0); [now injection Esplit as <- <-|].
    now rewrite Esplit in Hdot. }
  clear Esplit Hdot. revert Hrun. unfold bind at 1.
  match goal with
  | |- context [match ?c w with _ => _ end] => destruct (c w) as [[done|e] wc] eqn:Ec
  end; [|discriminate].
  assert (Hdone : done = false).
  { destruct (truthy head && truthy tail); unfold ret in Ec;
      [|now injection Ec as <- _].
    unfold bind at 1, os.exists_ in Ec. cbn beta iota in Ec.
    destruct (negb _); unfold ret in Ec; [|now injection Ec as <- _].
    unfold bind in Ec. destruct (try_except _ _ w) as [[u|e] wr]; [|discriminate].
    unfold ret in Ec. injection Ec as <- _.
    now destruct (decide (tail = py ".")). }
  subst done. unfold try_except.
  destruct (mkdir_outcome path wc) as [Hm | [e Hm]]; rewrite Hm.
  - intros H. injection H as <-. unfold os.isdir. simpl.
    rewrite (bool_decide_eq_true_2 (os.norm path ∈ _)) by set_solver.
    now rewrite orb_true_r.
  - unfold bind, os.isdir, ret, raise.
    destruct (_ || _) eqn:Ed; [|discriminate].
    intros H. injection H as <-. now rewrite Ed.
Qed.

End OsFacts.

(** ** The flashcard parser *)

Module FlashcardFacts.

Import FlashcardPipeline FlashcardTerms Samples.



Lemma collect_cards_readable items cs acc :
  Forall2 (fun item c => entry_card item = Some c) items cs ->
  collect_cards items acc = Ok (acc ++ List.filter kept cs).
Proof.
  intros H. revert acc.
  induction H as [|item c items cs Hc _ IH]; intros acc; simpl.
  - now rewrite app_nil_r.
  - destruct item as [| | | | |l|d]; try discriminate. simpl in Hc.
    unfold entry_field in Hc. simpl.
    destruct (Json.dict_lookup (py "question") d) as [[| | | |q| |]|] eqn:Eq;
      try discriminate;
      destruct (Json.dict_lookup (py "answer") d) as [[| | | |a| |]|] eqn:Ea;
      try discriminate;
      injection Hc as <-; simpl; rewrite IH; unfold kept; simpl.
      all: try reflexivity.
      + destruct (truthy (strip q) && truthy (strip a)); simpl;
          [rewrite <- app_assoc|]; reflexivity.
      + rewrite andb_false_r. reflexivity.
Qed.

Section Parser.

Variable json_loads : str -> option json.

Lemma parse_flashcards_decoded raw data :
  json_loads (json_str raw) = Some data ->
  _parse_flashcards json_loads raw =
    (let? cards_raw := Json.get data (py "cards") (JList []) in
     let? items := Json.iter cards_raw in
     collect_cards items []).
Proof. intros H. unfold _parse_flashcards. now rewrite H. Qed.

End Parser.

Section Generation.

Variable json_loads : str -> option json.
Variable llm : World -> str -> result str.
Variable split_documents : Z -> Z -> list Document -> result (list Document).

Lemma create_chunks_in_memory_split config docs w :
  docs <> [] ->
  DocumentChunking.create_chunks_in_memory split_documents config docs w =
    (match split_documents (chunk_size config) (chunk_overlap config) docs with
     | Ok chunks => Ok chunks
     | Raise e => Raise (CustomException e)
     end, w).
Proof.
  intros Hdocs. destruct docs as [|d docs]; [congruence|].
  unfold DocumentChunking.create_chunks_in_memory, try_except, bind, lift, ret, raise.
  now destruct (split_documents _ _ _).
Qed.

Lemma generate_from_docs_run self docs mc w chunks :
  docs <> [] ->
  split_documents (chunk_size (chunker self)) (chunk_overlap (chunker self)) docs
    = Ok chunks ->
  chunks <> [] ->
  generate_from_docs json_loads llm split_documents self docs mc w =
    (let? raw := llm w (prompt_for self chunks mc) in _parse_flashcards json_loads raw,
     set_prompts (cons (prompt_for self chunks mc)) w).
Proof.
  intros Hdocs Hsplit Hchunks.
  unfold generate_from_docs. destruct docs as [|d docs]; [congruence|].
  unfold bind at 1. rewrite create_chunks_in_memory_split by assumption.
  rewrite Hsplit. destruct chunks as [|c chunks]; [congruence|].
  unfold bind, llm_invoke, lift, ret, prompt_for.
  destruct (llm w _) as [raw|e]; simpl; [|reflexivity].
  now destruct (_parse_flashcards json_loads raw).
Qed.

End Generation.



(** C5, as the code has it.  When the decoded reply is an object whose
    "cards" value is a list of objects in which "question" and "answer",
    where present, are strings, the parser returns, in order and trimmed,
    exactly the entries whose question and answer are both non-empty after
    trimming (an absent key counts as empty); the others are dropped without
    an error.  [generate_from_docs] returns that list whatever [max_cards]
    is: the number of cards is not compared with it. *)
Theorem parse_flashcards_filter (json_loads : str -> option json) (raw : str)
    (d : list (str * json)) (items : list json) (cs : list card) :
  json_loads (json_str raw) = Some (JDict d) ->
  Json.dict_lookup (py "cards") d = Some (JList items) ->
  Forall2 (fun item c => entry_card item = Some c) items cs ->
  _parse_flashcards json_loads raw = Ok (List.filter kept cs)
  /\ (forall llm split_documents self docs chunks mc w,
        docs <> [] ->
        split_documents (chunk_size (chunker self)) (chunk_overlap (chunker self)) docs
          = Ok chunks ->
        chunks <> [] ->
        llm w (prompt_for self chunks mc) = Ok raw ->
        fst (generate_from_docs json_loads llm split_documents self docs mc w)
          = Ok (List.filter kept cs)).
Proof.
  intros Hdata Hcards Hitems.
  assert (Hparse : _parse_flashcards json_loads raw = Ok (List.filter kept cs)).
  { rewrite (parse_flashcards_decoded _ _ _ Hdata). simpl. rewrite Hcards. simpl.
    now rewrite (collect_cards_readable _ _ _ Hitems). }
  split; [exact Hparse|].
  intros llm split self docs chunks mc w Hdocs Hsplit Hchunks Hllm.
  rewrite (generate_from_docs_run _ _ _ _ _ _ _ _ Hdocs Hsplit Hchunks).
  simpl. rewrite Hllm. exact Hparse.
Qed.

Lemma parse_flashcards_filter_witness :
  _parse_flashcards Json.loads two_entries_reply = Ok [mkcard (py "Q2") (py "A2")].
Proof.
  apply (parse_flashcards_filter Json.loads two_entries_reply
           [(py "cards", JList two_entries)] two_entries
           [mkcard [] (py "A"); mkcard (py "Q2") (py "A2")]).
  - vm_compute. reflexivity.
  - reflexivity.
  - repeat constructor.
Defined.

(** C5 as stated fails: an entry that is not an object (here the number 5)
    is not dropped; the attribute lookup on it raises. *)
Lemma malformed_entry_raises :
  Json.loads (json_str malformed_entry_reply) =
    Some (JDict [(py "cards", JList [JInt 5])])
  /\ _parse_flashcards Json.loads malformed_entry_reply = Raise AttributeError.
Proof. split; vm_compute; reflexivity. Qed.

(** C10, as the code has it.  Let the text the parser decodes (the reply
    from its first "{" to its last "}", or the whole reply when there is no
    such pair) be valid JSON.  When it is an object without a "cards" key,
    or one whose "cards" value is the empty list, the parser returns the
    empty list and raises nothing.  When it is not an object (an array, a
    string, a number, true, false, null), the parser raises AttributeError;
    when it is an object whose "cards" value is a number, true, false or
    null, the parser raises TypeError. *)
Theorem parse_flashcards_no_cards (json_loads : str -> option json) (raw : str)
    (v : json) :
  json_loads (json_str raw) = Some v ->
  match v with
  | JDict d =>
      match Json.dict_lookup (py "cards") d with
      | None | Some (JList []) => _parse_flashcards json_loads raw = Ok []
      | Some (JNull | JBool _ | JInt _ | JFloat _) =>
          _parse_flashcards json_loads raw = Raise TypeError
      | Some _ => True
      end
  | _ => _parse_flashcards json_loads raw = Raise AttributeError
  end.
Proof.
  intros Hdata. unfold _parse_flashcards. rewrite Hdata.
  destruct v as [| b | z | x | s0 | l | d]; try reflexivity.
  simpl. destruct (Json.dict_lookup (py "cards") d) as [[| b | z | x | s0 | [|i l] | d']|];
    try reflexivity; exact I.
Qed.

Lemma parse_flashcards_no_cards_witness :
  _parse_flashcards Json.loads (py "I have nothing to add. {}") = Ok []
  /\ _parse_flashcards Json.loads (py "null") = Raise AttributeError.
Proof.
  split.
  - apply (parse_flashcards_no_cards Json.loads _ (JDict [])).
    vm_compute. reflexivity.
  - apply (parse_flashcards_no_cards Json.loads (py "null") JNull).
    vm_compute. reflexivity.
Defined.

(** C10 as stated fails: a reply that is valid JSON but not an object (here
    an array) makes the parser raise, and so does an object of the wrong
    shape (here one whose "cards" value is a number). *)
Lemma array_reply_raises :
  Json.loads array_reply = Some (JList [JInt 1; JInt 2])
  /\ Json.loads (json_str array_reply) = Some (JList [JInt 1; JInt 2])
  /\ _parse_flashcards Json.loads array_reply = Raise AttributeError
  /\ Json.loads (json_str number_cards_reply) = Some (JDict [(py "cards", JInt 5)])
  /\ _parse_flashcards Json.loads number_cards_reply = Raise TypeError.
Proof. repeat split; vm_compute; reflexivity. Qed.

Lemma build_prompt_sentence text n :
  exists after, _build_prompt text n = prompt_before ++ request_sentence n ++ after.
Proof.
  eexists. unfold _build_prompt, request_sentence, prompt_before.
  cbn [join app]. rewrite <- !app_assoc. cbn [app].
  do 2 (f_equal; try reflexivity).
Qed.

Lemma build_prompt_20_not_0 text : _build_prompt text 20 <> _build_prompt text 0.
Proof.
  intros H.
  destruct (build_prompt_sentence text 20) as [a Ha].
  destruct (build_prompt_sentence text 0) as [b Hb].
  rewrite Ha, Hb in H. apply app_inv_head in H.
  unfold request_sentence in H. rewrite <- !app_assoc in H.
  apply app_inv_head in H.
  change (str_of_int 20) with [50; 48]%N in H.
  change (str_of_int 0) with [48]%N in H.
  discriminate H.
Qed.

(** C9. On the pipeline as it is built ([max_cards] 20), a call of
    [generate_from_docs] with [max_cards] 0, or None, that reaches the
    model sends the prompt for 20 cards: the prompt asks to "create at most
    20" flashcards and differs from the prompt for 0 cards. *)
Theorem falsy_max_cards_requests_default
    (PROJECT_ROOT : str) (json_loads : str -> option json)
    (llm : World -> str -> result str)
    (split_documents : Z -> Z -> list Document -> result (list Document))
    (docs chunks : list Document) (mc : option Z) (w : World) :
  let self := FlashcardPipeline.__init__ PROJECT_ROOT default_max_cards in
  let text := join [nl; nl] (map page_content chunks) in
  docs <> [] ->
  split_documents 1000%Z 200%Z docs = Ok chunks ->
  chunks <> [] ->
  mc = Some 0%Z \/ mc = None ->
  prompts (snd (generate_from_docs json_loads llm split_documents self docs mc w))
    = _build_prompt text 20 :: prompts w
  /\ (exists after,
        _build_prompt text 20 = prompt_before ++ request_sentence 20 ++ after)
  /\ _build_prompt text 20 <> _build_prompt text 0.
Proof.
  intros self text Hdocs Hsplit Hchunks Hmc.
  split; [|split].
  - rewrite (generate_from_docs_run _ _ _ self docs mc w chunks Hdocs Hsplit Hchunks).
    simpl. unfold prompt_for.
    now destruct Hmc as [-> | ->].
  - apply build_prompt_sentence.
  - apply build_prompt_20_not_0.
Qed.

Lemma falsy_max_cards_requests_default_witness :
  prompts (snd (generate_from_docs Json.loads llm_empty_object split_identity
                  (FlashcardPipeline.__init__ (py "/srv/flash") default_max_cards)
                  [interest_doc] (Some 0%Z) empty_world))
    = [_build_prompt (py "Interest rates are fixed for 12 months.") 20].
Proof.
  apply (falsy_max_cards_requests_default (py "/srv/flash") Json.loads
           llm_empty_object split_identity [interest_doc] [interest_doc]
           (Some 0%Z) empty_world).
  - discriminate.
  - reflexivity.
  - discriminate.
  - left. reflexivity.
Defined.

End FlashcardFacts.

(** ** The HTTP handlers *)

Module AppFacts.

Import Schemas App AppTerms MoreTerms Samples PyFacts.

Lemma preview_bounds (content : str) :
  let preview := replace nl space (strip (prefix 280 content)) in
  length preview <= 280 /\ ~ In nl preview.
Proof.
  split.
  - rewrite replace_length.
    etransitivity; [apply strip_length|].
    unfold prefix. rewrite length_take. lia.
  - apply replace_removes. discriminate.
Qed.

Lemma build_sources_length docs n : length (_build_sources docs n) = Nat.min n (length docs).
Proof. unfold _build_sources. now rewrite length_map, length_take. Qed.

Lemma build_sources_summarises docs n :
  Forall2 summarises (firstn n docs) (_build_sources docs n).
Proof.
  unfold _build_sources.
  induction (firstn n docs) as [|doc l IH]; simpl; constructor; [|exact IH].
  unfold summarises; simpl.
  repeat split; try reflexivity; apply preview_bounds.
Qed.

Section Ask.

Variable answer_question :
  World -> str -> list (str * str) -> option str -> result (str * list Document).

(** C8. When the /ask endpoint returns a response, the response holds the
    answer of the orchestrator and one summary for each of its first three
    documents, in order, so at most three: the document's "source" and
    "doc_type" metadata, and a preview made of the first 280 characters of
    the text, trimmed, with each newline replaced by a space; the preview
    has at most 280 characters and no newline. *)
Theorem ask_response_sources (payload : AskRequest) (w w' : World)
    (resp : AskResponse) :
  ask_question answer_question payload w = (Ok resp, w') ->
  exists ans docs,
    answer_question w (question payload)
      (map (fun msg => (role msg, content msg)) (history payload))
      (doc_type payload) = Ok (ans, docs)
    /\ answer resp = ans
    /\ length (sources resp) <= 3
    /\ Forall2 summarises (firstn 3 docs) (sources resp).
Proof.
  unfold ask_question, try_except, bind, pipeline_answer_question, ret, raise.
  destruct (answer_question w _ _ _) as [[ans docs]|e] eqn:E; simpl; [|discriminate].
  intros H. injection H as <- <-. exists ans, docs. simpl.
  repeat split.
  - rewrite build_sources_length. lia.
  - apply build_sources_summarises.
Qed.

(** C7. A body whose question is the empty string is refused when the
    request is validated: the route answers with the validation failure
    (422, not a 500), and the world is unchanged, so the orchestrator was
    not called. *)
Theorem empty_question_rejected (body : AskBody) (w : World) :
  body_question body = [] ->
  post_ask answer_question body w = (HTTP_422, w)
  /\ questions (snd (post_ask answer_question body w)) = questions w.
Proof.
  intros Hq. unfold post_ask, validate_AskRequest. rewrite Hq. simpl. tauto.
Qed.

(** A valid body does reach the orchestrator. *)
Lemma valid_question_reaches_orchestrator (body : AskBody) (w : World) payload :
  validate_AskRequest body = Ok payload ->
  questions (snd (post_ask answer_question body w)) = question payload :: questions w.
Proof.
  intros Hv. unfold post_ask. rewrite Hv.
  unfold ask_question, try_except, bind, pipeline_answer_question, ret, raise.
  destruct (answer_question w _ _ _) as [[ans docs]|e]; reflexivity.
Qed.

End Ask.

Lemma ask_response_sources_witness :
  exists ans docs,
    rag_four_docs empty_world (question rates_request)
      (map (fun msg => (role msg, content msg)) (history rates_request))
      (doc_type rates_request) = Ok (ans, docs)
    /\ answer (mkAskResponse (py "Twelve months.") (_build_sources four_docs 3)) = ans
    /\ length (sources (mkAskResponse (py "Twelve months.")
                          (_build_sources four_docs 3))) <= 3
    /\ Forall2 summarises (firstn 3 docs)
         (sources (mkAskResponse (py "Twelve months.") (_build_sources four_docs 3))).
Proof.
  apply (ask_response_sources rag_four_docs rates_request empty_world
           (set_questions (cons (question rates_request)) empty_world)).
  reflexivity.
Defined.

Lemma empty_question_rejected_witness :
  post_ask rag_four_docs (mkAskBody [] None []) empty_world = (HTTP_422, empty_world).
Proof.
  apply (proj1 (empty_question_rejected rag_four_docs (mkAskBody [] None [])
                  empty_world eq_refl)).
Defined.

Section Flashcards.

Variable json_loads : str -> option json.
Variable llm : World -> str -> result str.
Variable split_documents : Z -> Z -> list Document -> result (list Document).
Variable pdf_load : str -> str -> result (list Document).
Variable mktemp : World -> str.
Variable PROJECT_ROOT : str.

(** Neither loading the upload nor generating the cards touches a file. *)
Lemma load_uploaded_pdf_world path dt w :
  snd (Ingestion.load_uploaded_pdf pdf_load path dt w) = w.
Proof.
  unfold Ingestion.load_uploaded_pdf, bind, os.exists_, raise, ret.
  destruct (negb _); [reflexivity|].
  destruct (files w !! path); [destruct (pdf_load _ _)|]; reflexivity.
Qed.

Lemma generate_from_docs_world self docs mc w :
  let w' := snd (FlashcardPipeline.generate_from_docs json_loads llm split_documents
                   self docs mc w) in
  w' = w \/ exists prompt, w' = set_prompts (cons prompt) w.
Proof.
  cbv zeta.
  destruct (FlashcardPipeline.generate_from_docs _ _ _ self docs mc w)
    as [r w'] eqn:E.
  unfold FlashcardPipeline.generate_from_docs in E. simpl.
  destruct docs as [|d docs]; [left; now injection E|].
  unfold bind at 1 in E.
  rewrite (FlashcardFacts.create_chunks_in_memory_split split_documents) in E
    by discriminate.
  destruct (split_documents _ _ _) as [[|c chunks]|e];
    try (left; now injection E).
  right. eexists.
  unfold bind, FlashcardPipeline.llm_invoke, lift, ret in E. cbn beta iota in E.
  destruct (llm w _) as [raw|e]; [|injection E as _ <-; reflexivity].
  destruct (FlashcardPipeline._parse_flashcards json_loads raw);
    injection E as _ <-; reflexivity.
Qed.

Lemma generate_from_docs_files self docs mc w :
  let w' := snd (FlashcardPipeline.generate_from_docs json_loads llm split_documents
                   self docs mc w) in
  files w' = files w /\ tempfiles w' = tempfiles w.
Proof.
  cbv zeta.
  destruct (generate_from_docs_world self docs mc w) as [-> | [prompt ->]];
    split; reflexivity.
Qed.

Lemma save_upload_run contents w :
  (let* tmp := NamedTemporaryFile mktemp in
   let* _ := os.write_file tmp contents in
   ret tmp) w
  = match write_fault w (mktemp w) [] with
    | Some f => (Raise (fault_exn f), w)
    | None =>
        match write_fault w (mktemp w) contents with
        | None => (Ok (mktemp w), upload_world mktemp contents w)
        | Some f =>
            (Raise (fault_exn f),
             match f with
             | Refused _ => created_world mktemp w
             | Partial _ written =>
                 set_files (<[mktemp w := written]>) (created_world mktemp w)
             end)
        end
    end.
Proof.
  unfold bind, NamedTemporaryFile, os.write_file, ret.
  destruct (write_fault w (mktemp w) []) as [f|]; [reflexivity|]. cbn.
  destruct (write_fault w (mktemp w) contents) as [[e|e written]|]; reflexivity.
Qed.

(** Once the upload is in its file, the body of the inner try block leaves
    the files as they are. *)
Lemma try_body_files contents max_cards w :
  let w2 := snd (try_body json_loads llm split_documents pdf_load PROJECT_ROOT
                   (mktemp w) max_cards (upload_world mktemp contents w)) in
  files w2 = files (upload_world mktemp contents w)
  /\ tempfiles w2 = mktemp w :: tempfiles w.
Proof.
  cbv zeta. set (w1 := upload_world mktemp contents w).
  destruct (try_body _ _ _ _ _ _ _ w1) as [rb w2] eqn:Hbody. cbn [snd].
  unfold try_body in Hbody. unfold bind at 1 in Hbody.
  pose proof (load_uploaded_pdf_world (mktemp w) (py "flashcard_upload") w1) as Hl.
  destruct (Ingestion.load_uploaded_pdf _ _ _ w1) as [[docs|e] wl];
    simpl in Hl; subst wl.
  - unfold bind at 1 in Hbody.
    pose proof (generate_from_docs_files (get_flashcard_pipeline PROJECT_ROOT)
                  docs (Some max_cards) w1) as Hg.
    destruct (FlashcardPipeline.generate_from_docs _ _ _ _ _ _ w1)
      as [[cards|e] wg]; simpl in Hg; unfold ret in Hbody;
      injection Hbody as <- <-; exact Hg.
  - injection Hbody as <- <-. split; reflexivity.
Qed.

(** The run of the handler on an upload that has been read: what the
    creation of the file and the write decide, and past them the outcome of
    the inner try block, with the file removed. *)
Lemma generate_flashcards_saved contents max_cards w :
  generate_flashcards json_loads llm split_documents pdf_load mktemp PROJECT_ROOT
    (Ok contents) max_cards w
  = match write_fault w (mktemp w) [] with
    | Some f => (Raise (HTTPException 500 (fault_exn f)), w)
    | None =>
        match write_fault w (mktemp w) contents with
        | Some f =>
            (Raise (HTTPException 500 (fault_exn f)),
             match f with
             | Refused _ => created_world mktemp w
             | Partial _ written =>
                 set_files (<[mktemp w := written]>) (created_world mktemp w)
             end)
        | None =>
            let run := try_body json_loads llm split_documents pdf_load PROJECT_ROOT
                         (mktemp w) max_cards (upload_world mktemp contents w) in
            (or_500 (fst run), set_files (delete (mktemp w)) (snd run))
        end
    end.
Proof.
  unfold generate_flashcards, try_except at 1.
  unfold bind at 1, lift at 1. unfold bind at 1.
  rewrite save_upload_run.
  destruct (write_fault w (mktemp w) []) as [f|]; [reflexivity|].
  destruct (write_fault w (mktemp w) contents) as [f|]; [reflexivity|].
  cbv zeta. pose proof (try_body_files contents max_cards w) as [Hf _].
  unfold try_finally, os.remove.
  change (let* docs := Ingestion.load_uploaded_pdf pdf_load (mktemp w)
                         (py "flashcard_upload") in _)
    with (try_body json_loads llm split_documents pdf_load PROJECT_ROOT
            (mktemp w) max_cards).
  destruct (try_body _ _ _ _ _ _ _ _) as [rb w2]. cbn [fst snd] in *.
  rewrite Hf. simpl. rewrite lookup_insert_eq.
  now destruct rb.
Qed.

(** C4, at the input where it fails.  When the temporary file has been
    created and writing the upload to it raises, the handler ends with an
    HTTPException with status 500 around that exception, and the file is
    still there, holding what the write has left: the write stands before
    the inner try block, so [os.remove] is never reached. *)
Theorem upload_tempfile_left (contents : str) (max_cards : Z) (w : World) (f : fault) :
  write_fault w (mktemp w) [] = None ->
  write_fault w (mktemp w) contents = Some f ->
  let run := generate_flashcards json_loads llm split_documents pdf_load mktemp
               PROJECT_ROOT (Ok contents) max_cards w in
  fst run = Raise (HTTPException 500 (fault_exn f))
  /\ tempfiles (snd run) = mktemp w :: tempfiles w
  /\ files (snd run) !! mktemp w = Some (left_by f).
Proof.
  intros Hc Hw run. subst run. rewrite generate_flashcards_saved, Hc, Hw.
  cbn [fst snd]. split; [reflexivity|].
  destruct f as [e|e written]; simpl; (split; [reflexivity|]);
    apply lookup_insert_eq.
Qed.

(** X23. When the upload has been written to its temporary file, that file
    does not exist when the handler ends, whether it returns the response or
    raises (the loader, the chunker, the model or the parser failed), and no
    other file has changed.  When the file cannot be created, there is no
    temporary file and nothing has changed.  In every case the outcome is
    the response or an HTTPException with status 500. *)
Theorem upload_tempfile_removed (file_read : result str) (max_cards : Z) (w : World) :
  let run := generate_flashcards json_loads llm split_documents pdf_load mktemp
               PROJECT_ROOT file_read max_cards w in
  (forall contents,
     file_read = Ok contents -> upload_saved mktemp contents w = Ok tt ->
     tempfiles (snd run) = mktemp w :: tempfiles w
     /\ files (snd run) !! mktemp w = None
     /\ (forall p, p <> mktemp w -> files (snd run) !! p = files w !! p))
  /\ ((forall contents, file_read = Ok contents ->
         exists f, write_fault w (mktemp w) [] = Some f)
      -> snd run = w)
  /\ ((exists resp, fst run = Ok resp)
      \/ (exists e, fst run = Raise (HTTPException 500 e))).
Proof.
  intros run. subst run.
  destruct file_read as [contents|e0].
  2:{ split; [intros c Hc; discriminate|]. split; [reflexivity|].
      right. now exists e0. }
  rewrite generate_flashcards_saved. unfold upload_saved.
  destruct (write_fault w (mktemp w) []) as [f|] eqn:Hc.
  { split; [intros c _ Hs; discriminate|]. split; [reflexivity|].
    right. now eexists. }
  split; [|split].
  - intros c Hcont Hs. injection Hcont as <-.
    destruct (write_fault w (mktemp w) contents) as [f|]; [discriminate|].
    destruct (try_body_files contents max_cards w) as (Hf & Ht).
    cbn [fst snd]. simpl. rewrite Hf, Ht. simpl.
    split; [reflexivity|]. split; [apply lookup_delete_eq|].
    intros p Hp. rewrite lookup_delete_ne by congruence.
    rewrite !lookup_insert_ne by congruence. reflexivity.
  - intros H. destruct (H contents eq_refl) as [f Hf]. discriminate.
  - destruct (write_fault w (mktemp w) contents) as [f|]; [right; now eexists|].
    cbn [fst]. destruct (fst _) as [resp|e]; [left|right]; now eexists.
Qed.

End Flashcards.

Import MoreSamples.

Lemma upload_tempfile_left_witness :
  let run := generate_flashcards Json.loads llm_unreachable
               split_identity pdf_one_page mktemp_fixed
               (py "/srv/flash")
               (Ok (py "Interest rates are fixed for 12 months.")) 5 full_disk in
  fst run = Raise (HTTPException 500 (LibraryError (py "No space left on device")))
  /\ tempfiles (snd run) = [py "/tmp/tmpk3v9.pdf"]
  /\ files (snd run) !! py "/tmp/tmpk3v9.pdf" = Some [].
Proof.
  exact (upload_tempfile_left Json.loads llm_unreachable
           split_identity pdf_one_page mktemp_fixed (py "/srv/flash")
           (py "Interest rates are fixed for 12 months.") 5 full_disk
           (Partial (LibraryError (py "No space left on device")) [])
           eq_refl eq_refl).
Defined.

Lemma upload_tempfile_removed_witness :
  let run := generate_flashcards Json.loads llm_unreachable
               split_identity pdf_one_page mktemp_fixed
               (py "/srv/flash")
               (Ok (py "Interest rates are fixed for 12 months.")) 5 empty_world in
  tempfiles (snd run) = [py "/tmp/tmpk3v9.pdf"]
  /\ files (snd run) !! py "/tmp/tmpk3v9.pdf" = None.
Proof.
  intros run.
  destruct (proj1 (upload_tempfile_removed Json.loads llm_unreachable
                     split_identity pdf_one_page mktemp_fixed
                     (py "/srv/flash")
                     (Ok (py "Interest rates are fixed for 12 months.")) 5
                     empty_world) _ eq_refl eq_refl) as (H1 & H2 & _).
  split; [exact H1 | exact H2].
Defined.

End AppFacts.

(** ** The reference CSV codec reads back what it writes *)

Module CsvFacts.

Import Csv CsvTerms.










End CsvFacts.

(** ** The splitter: chunk sizes, and when there are chunks *)

Module SplitterFacts.

Import TextSplitter SplitterTerms.

Lemma sumlen_app l1 l2 : sumlen (l1 ++ l2) = (sumlen l1 + sumlen l2)%Z.
Proof. induction l1 as [|x l1 IH]; simpl; [reflexivity|]. rewrite IH. lia. Qed.

Lemma sumlen_nonneg l : (0 <= sumlen l)%Z.
Proof. induction l as [|x l IH]; simpl; unfold len; lia. Qed.

Lemma join_nil l : join [] l = concat l.
Proof.
  induction l as [|x l IH]; [reflexivity|].
  destruct l as [|y l]; simpl in *; [now rewrite app_nil_r|].
  now rewrite IH.
Qed.

Lemma len_concat l : len (concat l) = sumlen l.
Proof.
  unfold len. induction l as [|x l IH]; simpl; [reflexivity|].
  rewrite length_app. unfold len. lia.
Qed.

Lemma lstrip_nonblank s : nonblank s -> nonblank (lstrip s).
Proof.
  unfold nonblank. induction s as [|c s IH]; intros H; simpl; [exact H|].
  destruct (isspace c) eqn:E; [|exact H].
  inversion H as [? ? Hc|? ? Hs]; subst; [congruence|]. now apply IH.
Qed.

Lemma nonblank_rev s : nonblank s -> nonblank (rev s).
Proof.
  unfold nonblank. rewrite !Exists_exists. intros (c & Hin & Hc).
  exists c. split; [|exact Hc].
  apply list_elem_of_In, in_rev. rewrite rev_involutive. now apply list_elem_of_In.
Qed.

Lemma strip_nonblank s : nonblank s -> strip s <> [].
Proof.
  intros H. unfold strip, rstrip.
  assert (Hn : nonblank (rev (lstrip (rev (lstrip s))))).
  { apply nonblank_rev, lstrip_nonblank, nonblank_rev, lstrip_nonblank, H. }
  intros E. rewrite E in Hn. inversion Hn.
Qed.

Lemma lstrip_blank s : ~ nonblank s -> lstrip s = [].
Proof.
  unfold nonblank. induction s as [|c s IH]; intros H; simpl; [reflexivity|].
  destruct (isspace c) eqn:E.
  - apply IH. intros Hs. apply H. now right.
  - exfalso. apply H. now left.
Qed.

Lemma strip_blank s : ~ nonblank s -> strip s = [].
Proof.
  intros H. unfold strip, rstrip. rewrite (lstrip_blank s H). reflexivity.
Qed.

Lemma nonblank_concat l : nonblank (concat l) <-> Exists nonblank l.
Proof.
  unfold nonblank. induction l as [|x l IH]; simpl.
  - split; intros H; inversion H.
  - rewrite Exists_app, Exists_cons, IH. reflexivity.
Qed.

Lemma classic_nonblank s : nonblank s \/ ~ nonblank s.
Proof.
  unfold nonblank. induction s as [|c s IH].
  - right. intros H. inversion H.
  - destruct (isspace c) eqn:E.
    + destruct IH as [H|H]; [left; now right|].
      right. intros H'. inversion H'; subst; [congruence | tauto].
    + left. now left.
Qed.

Lemma concat_pieces sep text cur skip :
  concat (pieces sep text cur skip) = rev cur ++ text.
Proof.
  revert cur skip. induction text as [|c text IH]; intros cur skip; simpl.
  - reflexivity.
  - destruct skip as [|k].
    + destruct (startswith sep (c :: text)); simpl; rewrite IH; simpl;
        [reflexivity | now rewrite <- app_assoc].
    + rewrite IH. simpl. now rewrite <- app_assoc.
Qed.

Lemma concat_filter_nonempty (l : list str) :
  concat (List.filter (fun s => negb (bool_decide (s = []))) l) = concat l.
Proof.
  induction l as [|x l IH]; simpl; [reflexivity|].
  destruct x as [|c x]; simpl; [exact IH|]. now rewrite IH.
Qed.

Lemma concat_split_text_with_regex text sep :
  concat (_split_text_with_regex text sep) = text.
Proof.
  unfold _split_text_with_regex. rewrite concat_filter_nonempty.
  destruct sep as [|c sep].
  - induction text as [|x text IH]; simpl; [reflexivity|]. now rewrite IH.
  - apply concat_pieces.
Qed.

Lemma split_chars_short text :
  Forall (fun s => len s = 1%Z) (_split_text_with_regex text []).
Proof.
  unfold _split_text_with_regex.
  induction text as [|x text IH]; simpl; constructor; [reflexivity | exact IH].
Qed.

Section Splitter.

Variable self : splitter.
Hypothesis size_ge_2 : (2 <= _chunk_size self)%Z.
Hypothesis overlap_nonneg : (0 <= _chunk_overlap self)%Z.

Lemma if_same {A} (b : bool) (x : A) : (if b then x else x) = x.
Proof. now destruct b. Qed.

Lemma pop_front_spec current total _len :
  total = sumlen current ->
  exists c t dropped,
    pop_front self current total _len 0 = Ok (c, t)
    /\ t = sumlen c
    /\ ((t + _len <= _chunk_size self)%Z \/ t = 0%Z)
    /\ current = dropped ++ c.
Proof.
  revert total. induction current as [|d0 rest IH]; intros total Htot.
  - simpl in Htot. subst total. simpl.
    replace (0 >? _chunk_overlap self)%Z with false by (symmetry; lia).
    rewrite andb_false_r. simpl.
    exists [], 0%Z, []. repeat split. now right.
  - cbn [pop_front]. rewrite !if_same, Z.add_0_r.
    destruct ((total >? _chunk_overlap self)
              || (total + _len >? _chunk_size self) && (total >? 0))%Z eqn:Hstill.
    + destruct (IH (total - (len d0 + 0))%Z) as (c & t & dropped & H1 & H2 & H3 & H4).
      { subst total. simpl. lia. }
      exists c, t, (d0 :: dropped). repeat split; try assumption.
      simpl. now rewrite H4.
    + exists (d0 :: rest), total, []. repeat split; [assumption|].
      apply orb_false_iff in Hstill. destruct Hstill as [_ Hstill].
      apply andb_false_iff in Hstill.
      pose proof (sumlen_nonneg (d0 :: rest)).
      destruct Hstill as [Hs|Hs]; [left|right]; lia.
Qed.

Lemma emit_spec docs current :
  (sumlen current <= _chunk_size self)%Z ->
  let docs' := append_doc docs (_join_docs current []) in
  (Forall (fits self) docs -> Forall (fits self) docs')
  /\ (docs <> [] \/ Exists nonblank current -> docs' <> [])
  /\ (~ Exists nonblank current -> docs' = docs).
Proof.
  intros Hsum. cbv zeta. unfold _join_docs. rewrite join_nil.
  destruct (decide (strip (concat current) = [])) as [E|E]; simpl.
  - split; [tauto|]. split; [|tauto].
    intros [H|H]; [exact H|]. exfalso.
    apply nonblank_concat in H. now apply strip_nonblank in H.
  - split; [|split].
    + intros Hd. apply Forall_app. split; [exact Hd|]. constructor; [|constructor].
      unfold fits. pose proof (PyFacts.strip_length (concat current)) as Hl.
      rewrite <- len_concat in Hsum. unfold len in *. lia.
    + intros _ H. now destruct docs.
    + intros H. exfalso. apply E, strip_blank. now rewrite nonblank_concat.
Qed.

Lemma merge_loop_spec splits docs current total :
  Forall (short self) splits ->
  total = sumlen current ->
  (total <= _chunk_size self)%Z ->
  exists out,
    merge_loop self [] splits docs current total = Ok out
    /\ (Forall (fits self) docs -> Forall (fits self) out)
    /\ (docs <> [] \/ Exists nonblank current \/ Exists nonblank splits -> out <> [])
    /\ (~ Exists nonblank current -> ~ Exists nonblank splits -> out = docs).
Proof.
  intros Hshort. revert docs current total.
  induction Hshort as [|d rest Hd _ IH]; intros docs current total Htot Hle.
  - simpl. eexists. split; [reflexivity|].
    subst total. destruct (emit_spec docs current Hle) as (H1 & H2 & H3).
    repeat split; [exact H1 | | tauto].
    intros [H|[H|H]]; [tauto | tauto | inversion H].
  - cbn [merge_loop]. change (len []) with 0%Z. rewrite !if_same, !Z.add_0_r.
    destruct ((total + len d >? _chunk_size self)%Z && (0 <? length current)%nat)
      eqn:Hover.
    + destruct (pop_front_spec current total (len d) Htot)
        as (c & t & dropped & Hpop & Ht & Hroom & Hsuffix).
      rewrite Hpop. cbn [rbind fst snd]. rewrite ?if_same, ?Z.add_0_r.
      destruct (IH (append_doc docs (_join_docs current [])) (c ++ [d])
                  (t + len d)%Z) as (out & Hout & Hfit & Hne & Hblank).
      { rewrite sumlen_app. simpl. lia. }
      { unfold short in Hd. destruct Hroom; lia. }
      subst total. destruct (emit_spec docs current Hle) as (E1 & E2 & E3).
      exists out. split; [exact Hout|]. repeat split.
      * intros H. apply Hfit, E1, H.
      * intros [H|[H|H]].
        -- apply Hne. left. apply E2. now left.
        -- apply Hne. left. apply E2. now right.
        -- apply Hne. inversion H; subst.
           ++ right. left. apply Exists_app. right. now left.
           ++ right. now right.
      * intros Hc Hs. rewrite Hblank.
        -- now apply E3.
        -- rewrite Exists_app. intros [H|H].
           ++ apply Hc. rewrite Hsuffix. apply Exists_app. now right.
           ++ apply Hs. inversion H; subst; [now left | easy].
        -- intros H. apply Hs. now right.
    + cbn [rbind]. rewrite ?if_same, ?Z.add_0_r.
      destruct (IH docs (current ++ [d]) (total + len d)%Z)
        as (out & Hout & Hfit & Hne & Hblank).
      { rewrite sumlen_app. simpl. lia. }
      { apply andb_false_iff in Hover. destruct Hover as [H|H]; [lia|].
        apply Nat.ltb_ge in H. destruct current; [|simpl in H; lia].
        simpl in Htot. unfold short in Hd. lia. }
      exists out. split; [exact Hout|]. repeat split.
      * exact Hfit.
      * intros [H|[H|H]].
        -- apply Hne. now left.
        -- apply Hne. right. left. apply Exists_app. now left.
        -- apply Hne. inversion H; subst.
           ++ right. left. apply Exists_app. right. now left.
           ++ right. now right.
      * intros Hc Hs. apply Hblank.
        -- rewrite Exists_app. intros [H|H]; [tauto|].
           apply Hs. inversion H; subst; [now left | easy].
        -- intros H. apply Hs. now right.
Qed.

Lemma flush_spec good final :
  Forall (short self) good ->
  exists out, flush self good final = Ok out
              /\ chunks_of self (Exists nonblank good) final out.
Proof.
  intros Hgood. unfold flush, chunks_of.
  destruct good as [|g good].
  - exists final. split; [reflexivity|]. split; [tauto|]. split; [|tauto].
    intros [H|H]; [exact H | inversion H].
  - unfold _merge_splits.
    destruct (merge_loop_spec (g :: good) [] [] 0%Z Hgood eq_refl)
      as (merged & Hm & Hfit & Hne & Hblank); [lia|].
    rewrite Hm. cbn [rbind]. exists (final ++ merged). split; [reflexivity|].
    split; [|split].
    + intros H. apply Forall_app. split; [exact H | apply Hfit; constructor].
    + intros [H|H] E; apply app_eq_nil in E; destruct E as [E1 E2];
        [tauto | apply Hne in E2; [exact E2 | tauto]].
    + intros H. rewrite Hblank; [apply app_nil_r | | exact H].
      intros H'. inversion H'.
Qed.

Lemma walk_spec recur splits good final :
  recur_ok self recur ->
  (recur = None -> Forall (short self) splits) ->
  Forall (short self) good ->
  exists out, walk self recur splits good final = Ok out
              /\ chunks_of self (Exists nonblank good \/ Exists nonblank splits) final out.
Proof.
  intros Hrecur. revert good final.
  induction splits as [|s more IH]; intros good final Hall Hgood.
  - simpl. destruct (flush_spec good final Hgood) as (out & Hout & H1 & H2 & H3).
    exists out. split; [exact Hout|]. split; [exact H1|]. split.
    + intros [H|[H|H]]; [apply H2; tauto | apply H2; tauto | inversion H].
    + intros H. apply H3. tauto.
  - cbn [walk]. destruct (len s <? _chunk_size self)%Z eqn:Hlen.
    + destruct (IH (good ++ [s]) final) as (out & Hout & H1 & H2 & H3).
      { intros E. specialize (Hall E). now inversion Hall. }
      { apply Forall_app. split; [exact Hgood|]. constructor; [|constructor].
        unfold short. lia. }
      exists out. split; [exact Hout|]. split; [exact H1|]. split.
      * intros H. apply H2. rewrite Exists_cons in H.
        rewrite Exists_app, Exists_cons, Exists_nil. tauto.
      * intros H. apply H3. rewrite Exists_cons in H.
        rewrite Exists_app, Exists_cons, Exists_nil. tauto.
    + destruct recur as [split_again|].
      2:{ exfalso. specialize (Hall eq_refl). inversion Hall; subst.
          unfold short in *. lia. }
      destruct (flush_spec good final Hgood) as (final1 & Hf & F1 & F2 & F3).
      rewrite Hf. cbn [rbind].
      destruct (Hrecur s) as (other & Ho & O1 & O2 & O3).
      rewrite Ho. cbn [rbind].
      destruct (IH [] (final1 ++ other)) as (out & Hout & H1 & H2 & H3);
        [discriminate | constructor |].
      exists out. split; [exact Hout|]. split; [|split].
      * intros H. apply H1. apply Forall_app. split; [now apply F1|].
        apply O1. constructor.
      * intros H. apply H2.
        rewrite Exists_cons in H.
        destruct H as [H|[H|[H|H]]].
        -- left. intros E. apply app_eq_nil in E. destruct E as [E _].
           revert E. apply F2. now left.
        -- left. intros E. apply app_eq_nil in E. destruct E as [E _].
           revert E. apply F2. now right.
        -- left. intros E. apply app_eq_nil in E. destruct E as [_ E].
           revert E. apply O2. now right.
        -- right. now right.
      * intros H. rewrite Exists_cons in H. rewrite H3.
        -- rewrite F3 by tauto. rewrite O3 by tauto. apply app_nil_r.
        -- intros [H'|H']; [inversion H' | tauto].
Qed.

Lemma split_text_spec separators text :
  last separators = Some [] ->
  exists out, _split_text self separators text = Ok out
              /\ chunks_of self (nonblank text) [] out.
Proof.
  revert text. induction separators as [|s rest IH]; intros text Hlast;
    [discriminate|].
  assert (Hwalk : forall recur sep,
             recur_ok self recur ->
             (recur = None -> sep = []) ->
             exists out, walk self recur (_split_text_with_regex text sep) [] []
                         = Ok out
                         /\ chunks_of self (nonblank text) [] out).
  { intros recur sep Hrecur Hsep.
    destruct (walk_spec recur (_split_text_with_regex text sep) [] [] Hrecur)
      as (out & Hout & H1 & H2 & H3).
    - intros E. rewrite (Hsep E).
      eapply Forall_impl; [apply split_chars_short|].
      intros a Ha. cbv beta in Ha. unfold short. pose proof size_ge_2. lia.
    - constructor.
    - exists out. split; [exact Hout|].
      assert (Hiff : Exists nonblank (_split_text_with_regex text sep)
                     <-> nonblank text).
      { rewrite <- nonblank_concat. now rewrite concat_split_text_with_regex. }
      split; [exact H1|]. split.
      + intros [H|H]; [tauto|]. apply H2. right. right. now apply Hiff.
      + intros H. apply H3. intros [H'|H']; [inversion H'|].
        apply H. now apply Hiff. }
  cbn [_split_text]. destruct (decide (s = [])) as [->|Hs].
  - apply Hwalk; [exact I | reflexivity].
  - assert (Hrest : rest <> []).
    { intros ->. simpl in Hlast. congruence. }
    assert (Hlast' : last rest = Some []).
    { destruct rest as [|r rest]; [congruence|]. exact Hlast. }
    destruct (contains s text).
    + destruct rest as [|r rest]; [congruence|].
      apply Hwalk; [|discriminate]. simpl. intros t. now apply IH.
    + destruct rest as [|r rest]; [congruence|]. now apply IH.
Qed.

Lemma split_documents_with_spec documents :
  last (_separators self) = Some [] ->
  exists out, split_documents_with self documents = Ok out
    /\ Forall (fun chunk => fits self (page_content chunk)) out
    /\ (Exists (fun d => nonblank (page_content d)) documents <-> out <> []).
Proof.
  intros Hlast. induction documents as [|doc rest IH].
  - exists []. split; [reflexivity|]. split; [constructor|].
    split; [intros H; inversion H | congruence].
  - destruct IH as (others & Ho & Hfit & Hne).
    destruct (split_text_spec (_separators self) (page_content doc) Hlast)
      as (chunks & Hc & C1 & C2 & C3).
    cbn [split_documents_with]. unfold split_text. rewrite Hc, Ho. cbn [rbind].
    eexists. split; [reflexivity|]. split; [|split].
    + apply Forall_app. split; [|exact Hfit].
      apply Forall_map. specialize (C1 (List.Forall_nil _)).
      eapply Forall_impl; [exact C1|]. intros a Ha. exact Ha.
    + rewrite Exists_cons. intros [H|H] E; apply app_eq_nil in E;
        destruct E as [E1 E2].
      * apply map_eq_nil in E1. revert E1. apply C2. now right.
      * now apply Hne in H.
    + intros H. rewrite Exists_cons.
      destruct (decide (others = [])) as [->|Hn]; [|right; now apply Hne].
      left. rewrite app_nil_r in H.
      destruct (classic_nonblank (page_content doc)) as [Hb|Hb]; [exact Hb|].
      rewrite (C3 Hb) in H. now contradiction H.
Qed.

End Splitter.

End SplitterFacts.

(** ** The chunker *)

Module ChunkingFacts.

Import DocumentChunking ChunkingTerms TextSplitter SplitterTerms SplitterFacts Samples.

Section Snapshot.

Variable split_documents : Z -> Z -> list Document -> result (list Document).
Variable config : DocumentChunkingConfig.

(** The run of [create_chunks]: the splitter, then the directory, then the
    write. *)
Lemma create_chunks_general (to_csv : DataFrame -> str) docs w :
  create_chunks split_documents to_csv config docs w =
    match chunks_for split_documents config docs with
    | Raise e => (Raise (CustomException e), w)
    | Ok chunks =>
        match os.makedirs (chunks_dir config) w with
        | (Raise e, w1) => (Raise (CustomException e), w1)
        | (Ok _, w1) =>
            match write_fault w1 (chunks_file config)
                    (to_csv (snapshot_table docs chunks)) with
            | None =>
                (Ok (chunks_file config, chunks),
                 set_files (<[chunks_file config :=
                                to_csv (snapshot_table docs chunks)]>) w1)
            | Some f =>
                (Raise (CustomException (fault_exn f)),
                 match f with
                 | Refused _ => w1
                 | Partial _ written =>
                     set_files (<[chunks_file config := written]>) w1
                 end)
            end
        end
    end.
Proof.
  unfold create_chunks, chunks_for, try_except.
  destruct docs as [|d docs].
  - unfold bind, ret, raise, os.write_file.
    destruct (os.makedirs (chunks_dir config) w) as [[u|e] w1]; [|reflexivity].
    change (pd.DataFrame_columns _) with (snapshot_table [] []).
    destruct (write_fault w1 _ _) as [[e|e written]|]; reflexivity.
  - unfold bind at 1, lift.
    destruct (split_documents _ _ _) as [chunks|e]; [|reflexivity].
    unfold bind, ret, raise, os.write_file.
    destruct (os.makedirs (chunks_dir config) w) as [[u|e] w1]; [|reflexivity].
    change (pd.DataFrame_records (map chunk_record chunks))
      with (snapshot_table (d :: docs) chunks).
    destruct (write_fault w1 _ _) as [[e|e written]|]; reflexivity.
Qed.

Lemma snapshot_table_rows docs chunks :
  chunks_for split_documents config docs = Ok chunks ->
  rows (snapshot_table docs chunks) = map chunk_row chunks.
Proof.
  destruct docs as [|d docs]; simpl.
  - intros H. now injection H as <-.
  - intros _. unfold pd.DataFrame_records. simpl. now rewrite map_map.
Qed.

(** A run that returns: the splitter gave the chunks, the directory was
    made, and the file holds the table, whole. *)
Lemma create_chunks_returns (to_csv : DataFrame -> str) docs w path chunks w' :
  create_chunks split_documents to_csv config docs w = (Ok (path, chunks), w') ->
  path = chunks_file config
  /\ chunks_for split_documents config docs = Ok chunks
  /\ exists w1,
       os.makedirs (chunks_dir config) w = (Ok tt, w1)
       /\ w' = set_files (<[chunks_file config :=
                              to_csv (snapshot_table docs chunks)]>) w1.
Proof.
  rewrite create_chunks_general.
  destruct (chunks_for split_documents config docs) as [cs|e]; [|discriminate].
  destruct (os.makedirs (chunks_dir config) w) as [[[]|e] w1]; [|discriminate].
  destruct (write_fault w1 _ _) as [f|]; [discriminate|].
  intros H. injection H as <- <- <-. repeat split. now exists w1.
Qed.

Lemma create_chunks_run (to_csv : DataFrame -> str) docs w path chunks w' :
  create_chunks split_documents to_csv config docs w = (Ok (path, chunks), w') ->
  path = chunks_file config
  /\ files w' !! path = Some (to_csv (snapshot_table docs chunks))
  /\ rows (snapshot_table docs chunks) = map chunk_row chunks.
Proof.
  intros Hrun. apply create_chunks_returns in Hrun.
  destruct Hrun as (-> & Hc & w1 & _ & ->).
  repeat split; [apply lookup_insert_eq | now apply snapshot_table_rows].
Qed.

(** C3. On the empty list, when the directory of the snapshot can be made
    and the write is not refused, [create_chunks] returns the configured
    path and the empty list, and the file at that path then holds the table
    with the columns text, source, doc_type and no row; as pandas writes it,
    that is the single line "text,source,doc_type". *)
Theorem create_chunks_empty_snapshot (w : World) :
  fst (os.makedirs (chunks_dir config) w) = Ok tt ->
  write_fault w (chunks_file config) (py "text,source,doc_type" ++ [nl]) = None ->
  let run := create_chunks split_documents Csv.to_csv config [] w in
  fst run = Ok (chunks_file config, [])
  /\ files (snd run) !! chunks_file config = Some (py "text,source,doc_type" ++ [nl])
  /\ Csv.read_csv (py "text,source,doc_type" ++ [nl]) = Some (mkDataFrame header [])
  /\ (forall to_csv,
        write_fault w (chunks_file config) (to_csv (mkDataFrame header [])) = None ->
        fst (create_chunks split_documents to_csv config [] w)
        = Ok (chunks_file config, [])
        /\ files (snd (create_chunks split_documents to_csv config [] w))
             !! chunks_file config
           = Some (to_csv (mkDataFrame header []))).
Proof.
  intros Hdir Hwrite.
  assert (Hany : forall to_csv,
             write_fault w (chunks_file config) (to_csv (mkDataFrame header [])) = None ->
             fst (create_chunks split_documents to_csv config [] w)
             = Ok (chunks_file config, [])
             /\ files (snd (create_chunks split_documents to_csv config [] w))
                  !! chunks_file config
                = Some (to_csv (mkDataFrame header []))).
  { intros to_csv Hw. rewrite create_chunks_general. simpl chunks_for. cbv iota.
    destruct (os.makedirs (chunks_dir config) w) as [[[]|e] w1] eqn:Em;
      [|discriminate].
    apply OsFacts.makedirs_adds in Em. destruct Em as (_ & _ & _ & _ & _ & Hf).
    rewrite Hf. simpl snapshot_table. rewrite Hw. cbn [fst snd].
    split; [reflexivity | apply lookup_insert_eq]. }
  cbv zeta. destruct (Hany Csv.to_csv Hwrite) as [H1 H2].
  split; [exact H1|]. split; [exact H2|]. split; [reflexivity | exact Hany].
Qed.


End Snapshot.

Import MoreSamples.

Lemma create_chunks_empty_snapshot_witness :
  let run := create_chunks split_identity Csv.to_csv
               (default_config (py "/srv/flash")) [] empty_world in
  fst run = Ok (py "/srv/flash/artifacts/chunks/chunks.csv", [])
  /\ files (snd run) !! py "/srv/flash/artifacts/chunks/chunks.csv"
     = Some (py "text,source,doc_type" ++ [nl]).
Proof.
  intros run.
  destruct (create_chunks_empty_snapshot split_identity
              (default_config (py "/srv/flash")) empty_world)
    as (H1 & H2 & _).
  - vm_compute. reflexivity.
  - reflexivity.
  - split; [exact H1 | exact H2].
Defined.



(** C1, as the code has it.  With the splitter of the library, for a chunk
    size of at least 2 and an overlap between 0 and the chunk size (the
    configuration has 1000 and 200), [create_chunks_in_memory] returns, for
    every list of documents, chunks of at most [chunk_size] characters each;
    the list has a chunk exactly when some document has a character that is
    not white space.  Nothing is promised about the text two consecutive
    chunks share. *)
Theorem chunks_in_memory_bounded (config : DocumentChunkingConfig)
    (docs : list Document) (w : World) :
  (2 <= chunk_size config)%Z ->
  (0 <= chunk_overlap config <= chunk_size config)%Z ->
  exists chunks,
    create_chunks_in_memory TextSplitter.split_documents config docs w = (Ok chunks, w)
    /\ Forall (fun c => (len (page_content c) <= chunk_size config)%Z) chunks
    /\ (chunks <> [] <-> Exists (fun d => nonblank (page_content d)) docs).
Proof.
  intros Hsize [Hov Hle].
  destruct docs as [|d docs].
  - exists []. split; [reflexivity|]. split; [constructor|].
    split; [congruence | intros H; inversion H].
  - rewrite FlashcardFacts.create_chunks_in_memory_split by discriminate.
    unfold TextSplitter.split_documents, RecursiveCharacterTextSplitter.
    replace (chunk_overlap config >? chunk_size config)%Z with false
      by (symmetry; lia).
    cbn [rbind].
    set (self := mkSplitter _ _ _).
    destruct (split_documents_with_spec self Hsize Hov (d :: docs) eq_refl)
      as (out & Hout & Hfit & Hne).
    rewrite Hout. exists out. split; [reflexivity|]. split; [exact Hfit|].
    symmetry. exact Hne.
Qed.

Lemma chunks_in_memory_bounded_witness :
  exists chunks,
    create_chunks_in_memory TextSplitter.split_documents
      (default_config (py "/srv/flash")) [interest_doc] empty_world
    = (Ok chunks, empty_world)
    /\ Forall (fun c => (len (page_content c) <= 1000)%Z) chunks
    /\ (chunks <> [] <-> Exists (fun d => nonblank (page_content d)) [interest_doc]).
Proof.
  apply (chunks_in_memory_bounded (default_config (py "/srv/flash"))
           [interest_doc] empty_world); cbn; lia.
Defined.

(** C1 as stated fails twice.  A document with an empty text gives no chunk
    at all, although the list of documents is not empty.  And a document of
    three words of 600 characters gives the three words as its chunks: the
    last 200 characters of one are not the first 200 of the next. *)
Lemma chunks_claim_fails :
  create_chunks_in_memory TextSplitter.split_documents
    (default_config (py "/srv/flash")) [mkDocument [] ∅] empty_world
  = (Ok [], empty_world)
  /\ fst (create_chunks_in_memory TextSplitter.split_documents
            (default_config (py "/srv/flash")) [mkDocument three_words ∅]
            empty_world)
     = Ok [ mkDocument (repeat 97%N 600) ∅; mkDocument (repeat 98%N 600) ∅;
            mkDocument (repeat 99%N 600) ∅ ]
  /\ skipn 400 (repeat 97%N 600) <> firstn 200 (repeat 98%N 600).
Proof.
  split; [vm_compute; reflexivity|]. split; [vm_compute; reflexivity|].
  vm_compute. discriminate.
Qed.

End ChunkingFacts.

(** ** The chunker: the two paths, and what a run leaves behind *)

Module ChunkerEffects.

Import DocumentChunking ChunkingTerms.

Section Chunker.

Variable split_documents : Z -> Z -> list Document -> result (list Document).
Variable to_csv : DataFrame -> str.
Variable config : DocumentChunkingConfig.

Lemma create_chunks_in_memory_general docs w :
  create_chunks_in_memory split_documents config docs w
  = (match chunks_for split_documents config docs with
     | Ok chunks => Ok chunks
     | Raise e => Raise (CustomException e)
     end, w).
Proof.
  destruct docs as [|d docs]; [reflexivity|].
  rewrite FlashcardFacts.create_chunks_in_memory_split by discriminate.
  simpl. now destruct (split_documents _ _ _).
Qed.

(** X1. The in-memory path leaves the world as it found it, and gives what
    the persisting path gives whenever that one returns: the same chunks.
    When the in-memory path raises, the persisting path raises the same
    exception and changes nothing.  The persisting path returns the chunks
    of the in-memory path when the directory of the snapshot can be made
    and the write does not go wrong; otherwise it raises where the
    in-memory path returns. *)
Theorem in_memory_agrees_with_persisting (docs : list Document) (w : World) :
  snd (create_chunks_in_memory split_documents config docs w) = w
  /\ (forall path chunks w',
        create_chunks split_documents to_csv config docs w = (Ok (path, chunks), w') ->
        fst (create_chunks_in_memory split_documents config docs w) = Ok chunks)
  /\ (forall e,
        fst (create_chunks_in_memory split_documents config docs w) = Raise e ->
        create_chunks split_documents to_csv config docs w = (Raise e, w))
  /\ (forall chunks,
        fst (create_chunks_in_memory split_documents config docs w) = Ok chunks ->
        fst (os.makedirs (chunks_dir config) w) = Ok tt ->
        write_fault w (chunks_file config) (to_csv (snapshot_table docs chunks))
        = None ->
        fst (create_chunks split_documents to_csv config docs w)
        = Ok (chunks_file config, chunks)).
Proof.
  rewrite create_chunks_in_memory_general. cbn [fst snd].
  split; [reflexivity|]. split; [|split].
  - intros path chunks w' Hrun.
    apply ChunkingFacts.create_chunks_returns in Hrun.
    destruct Hrun as (_ & -> & _). reflexivity.
  - intros e He. rewrite ChunkingFacts.create_chunks_general.
    destruct (chunks_for split_documents config docs) as [cs|c]; [discriminate|].
    now injection He as <-.
  - intros chunks Hc Hdir Hw. rewrite ChunkingFacts.create_chunks_general.
    destruct (chunks_for split_documents config docs) as [cs|c]; [|discriminate].
    injection Hc as ->.
    destruct (os.makedirs (chunks_dir config) w) as [[[]|e] w1] eqn:Em;
      [|discriminate].
    apply OsFacts.makedirs_adds in Em. destruct Em as (_ & _ & _ & _ & _ & Hf).
    now rewrite Hf, Hw.
Qed.

(** X2. When [create_chunks] raises, the exception is a [CustomException];
    no file other than the snapshot has changed and no directory is lost.
    When it is the splitter that raised, the exception is built around the
    splitter's and nothing at all has changed; otherwise the directory could
    not be made or the write went wrong, and the snapshot may have been
    replaced by part of the new one. *)
Theorem create_chunks_failure_keeps_world (docs : list Document) (w w' : World)
    (e : exn) :
  create_chunks split_documents to_csv config docs w = (Raise e, w') ->
  exists cause,
    e = CustomException cause
    /\ (forall p, p <> chunks_file config -> files w' !! p = files w !! p)
    /\ dirs w ⊆ dirs w'
    /\ (forall c, chunks_for split_documents config docs = Raise c ->
          cause = c /\ w' = w).
Proof.
  rewrite ChunkingFacts.create_chunks_general.
  destruct (chunks_for split_documents config docs) as [chunks|c].
  2:{ intros H. injection H as <- <-. exists c.
      split; [reflexivity|]. split; [reflexivity|]. split; [set_solver|].
      intros c' Hc'. now injection Hc' as <-. }
  destruct (os.makedirs (chunks_dir config) w) as [[[]|em] w1] eqn:Em;
    apply OsFacts.makedirs_adds in Em;
    destruct Em as (Hfiles & Hdirs & _).
  - destruct (write_fault w1 _ _) as [[ef|ef written]|]; [| |discriminate];
      intros H; injection H as <- <-; exists ef;
      (split; [reflexivity|]); (split; [|split; [exact Hdirs | discriminate]]);
      intros p Hp; simpl; rewrite ?lookup_insert_ne by congruence;
      now rewrite Hfiles.
  - intros H. injection H as <- <-. exists em.
    split; [reflexivity|]. split; [|split; [exact Hdirs | discriminate]].
    intros p _. now rewrite Hfiles.
Qed.

(** X3. A successful [create_chunks] replaces the snapshot and touches no
    other file: the file at [chunks_file] holds the new table whatever it
    held before and every other path holds what it held.  No directory is
    lost, [chunks_dir] is a directory (missing ancestors are made with it),
    and the logs of the world are unchanged. *)
Theorem create_chunks_overwrites_snapshot (docs : list Document) (w w' : World)
    (path : str) (chunks : list Document) :
  create_chunks split_documents to_csv config docs w = (Ok (path, chunks), w') ->
  files w' = <[chunks_file config := to_csv (snapshot_table docs chunks)]> (files w)
  /\ (forall p, p <> chunks_file config -> files w' !! p = files w !! p)
  /\ dirs w ⊆ dirs w'
  /\ (OsTerms.last_component (chunks_dir config) <> py "." ->
      fst (os.isdir (chunks_dir config) w') = Ok true)
  /\ tempfiles w' = tempfiles w /\ prompts w' = prompts w
  /\ questions w' = questions w.
Proof.
  intros Hrun. apply ChunkingFacts.create_chunks_returns in Hrun.
  destruct Hrun as (_ & _ & w1 & Hm & ->).
  pose proof (OsFacts.makedirs_adds _ _ _ _ Hm) as (Hf & Hd & Ht & Hp & Hq & _).
  simpl. rewrite Hf. repeat split; try assumption.
  - intros p Hne. now apply lookup_insert_ne.
  - intros Hdot. apply (OsFacts.makedirs_isdir _ _ _ Hm) in Hdot.
    unfold os.isdir in *. simpl in *. now injection Hdot as ->.
Qed.

(** X4. The table a successful [create_chunks] saves has the columns text,
    source, doc_type when the list of documents is empty or there is a
    chunk; when the documents are not empty and the splitter returns no
    chunk, the table has no column, so the snapshot has no header. *)
Theorem snapshot_columns (docs : list Document) (w w' : World)
    (path : str) (chunks : list Document) :
  create_chunks split_documents to_csv config docs w = (Ok (path, chunks), w') ->
  files w' !! path = Some (to_csv (snapshot_table docs chunks))
  /\ (docs = [] \/ chunks <> [] -> columns (snapshot_table docs chunks) = header)
  /\ (docs <> [] -> chunks = [] -> columns (snapshot_table docs chunks) = []).
Proof.
  intros Hrun. apply ChunkingFacts.create_chunks_run in Hrun.
  destruct Hrun as (_ & Hfile & _). split; [exact Hfile|]. split.
  - intros [-> | Hc]; [reflexivity|].
    destruct docs as [|d docs]; [reflexivity|].
    destruct chunks as [|c chunks]; [congruence | reflexivity].
  - intros Hd ->. destruct docs; [congruence | reflexivity].
Qed.

End Chunker.

(** Runs on concrete inputs. *)

Import Samples MoreSamples.

Lemma in_memory_agrees_with_persisting_witness :
  fst (create_chunks split_identity Csv.to_csv (default_config (py "/srv/flash"))
         [interest_doc] empty_world)
  = Ok (py "/srv/flash/artifacts/chunks/chunks.csv", [interest_doc]).
Proof.
  apply (proj2 (proj2 (proj2 (in_memory_agrees_with_persisting split_identity
                                Csv.to_csv (default_config (py "/srv/flash"))
                                [interest_doc] empty_world)))).
  - reflexivity.
  - vm_compute. reflexivity.
  - reflexivity.
Defined.

Lemma create_chunks_failure_keeps_world_witness :
  let file := py "/srv/flash/artifacts/chunks/chunks.csv" in
  let run := create_chunks split_identity Csv.to_csv
               (default_config (py "/srv/flash")) [interest_doc] stale_full_disk in
  fst run = Raise (CustomException (LibraryError (py "No space left on device")))
  /\ files (snd run) !! file = Some []
  /\ (forall p, p <> file -> files (snd run) !! p = files stale_full_disk !! p).
Proof.
  intros file run.
  assert (Hrun : run = (Raise (CustomException
                                 (LibraryError (py "No space left on device"))),
                        snd run))
    by (vm_compute; reflexivity).
  split; [now rewrite Hrun|]. split; [vm_compute; reflexivity|].
  destruct (create_chunks_failure_keeps_world split_identity Csv.to_csv
              (default_config (py "/srv/flash")) [interest_doc] stale_full_disk
              _ _ Hrun) as (cause & _ & H & _).
  exact H.
Defined.

Lemma create_chunks_overwrites_snapshot_witness :
  let cfg := default_config (py "/srv/flash") in
  let w' := snd (create_chunks split_identity Csv.to_csv cfg [interest_doc] stale_world) in
  files w' = <[chunks_file cfg := Csv.to_csv (snapshot_table [interest_doc] [interest_doc])]>
               (files stale_world)
  /\ fst (os.isdir (chunks_dir cfg) w') = Ok true.
Proof.
  intros cfg w'.
  assert (Hrun : create_chunks split_identity Csv.to_csv cfg [interest_doc] stale_world
                 = (Ok (chunks_file cfg, [interest_doc]), w'))
    by (vm_compute; reflexivity).
  destruct (create_chunks_overwrites_snapshot split_identity Csv.to_csv cfg
              [interest_doc] stale_world _ _ _ Hrun) as (H1 & _ & _ & H4 & _).
  split; [exact H1 | apply H4]. vm_compute. discriminate.
Defined.

Lemma snapshot_columns_witness :
  let cfg := default_config (py "/srv/flash") in
  let run := create_chunks split_nothing Csv.to_csv cfg [interest_doc] empty_world in
  files (snd run) !! chunks_file cfg
    = Some (Csv.to_csv (snapshot_table [interest_doc] []))
  /\ columns (snapshot_table [interest_doc] []) = [].
Proof.
  intros cfg run.
  assert (Hrun : run = (Ok (chunks_file cfg, []), snd run))
    by (vm_compute; reflexivity).
  destruct (snapshot_columns split_nothing Csv.to_csv cfg [interest_doc] empty_world
              _ _ _ Hrun) as (H1 & _ & H3).
  split; [exact H1 | apply H3; [discriminate | reflexivity]].
Defined.

End ChunkerEffects.

(** ** Trimming *)

Module StripFacts.

Lemma lstrip_idempotent s : lstrip (lstrip s) = lstrip s.
Proof.
  induction s as [|c s IH]; simpl; [reflexivity|].
  destruct (isspace c) eqn:E; [exact IH|]. simpl. now rewrite E.
Qed.

Lemma lstrip_fixed_head c s : lstrip (c :: s) = c :: s -> isspace c = false.
Proof.
  simpl. destruct (isspace c); [|reflexivity].
  intros H. pose proof (PyFacts.lstrip_length s) as Hl.
  rewrite H in Hl. simpl in Hl. lia.
Qed.

Lemma lstrip_split s :
  exists ws, s = ws ++ lstrip s /\ forallb isspace ws = true.
Proof.
  induction s as [|c s IH]; simpl.
  - exists []. split; reflexivity.
  - destruct (isspace c) eqn:E.
    + destruct IH as (ws & Hs & Hws). exists (c :: ws). simpl.
      rewrite E, Hws. split; [now rewrite <- Hs|reflexivity].
    + exists []. split; reflexivity.
Qed.

(** A trimmed text begins and ends with a character that is not white
    space, or is empty. *)
Lemma strip_lstrip_fixed s : lstrip (strip s) = strip s.
Proof.
  unfold strip, rstrip.
  set (t := lstrip s).
  assert (Ht : lstrip t = t) by apply lstrip_idempotent.
  destruct (lstrip_split (rev t)) as (ws & Hrev & _).
  set (u := lstrip (rev t)) in *.
  apply (f_equal (@rev N)) in Hrev. rewrite rev_involutive, rev_app_distr in Hrev.
  destruct (rev u) as [|c r] eqn:Eu; [reflexivity|].
  rewrite Hrev in Ht. simpl in Ht. simpl.
  destruct (isspace c) eqn:E; [|reflexivity].
  exfalso. pose proof (PyFacts.lstrip_length (r ++ rev ws)) as Hl.
  rewrite Ht in Hl. simpl in Hl. lia.
Qed.

Lemma strip_idempotent s : strip (strip s) = strip s.
Proof.
  unfold strip at 1. rewrite strip_lstrip_fixed.
  unfold strip, rstrip. rewrite rev_involutive. now rewrite lstrip_idempotent.
Qed.

End StripFacts.

(** ** The flashcard pipeline: what the parser returns, and when the model
    is called *)

Module PipelineFacts.

Import FlashcardPipeline FlashcardTerms MoreTerms.

Lemma collect_cards_trimmed items acc cards :
  Forall trimmed_card acc ->
  collect_cards items acc = Ok cards ->
  Forall trimmed_card cards /\ length cards <= length acc + length items.
Proof.
  revert acc. induction items as [|item items IH]; intros acc Hacc; simpl.
  - intros H. injection H as <-. split; [exact Hacc | lia].
  - destruct (Json.get item (py "question") (JStr [])) as [qv|]; [|discriminate].
    simpl. destruct (Json.strip_method qv) as [q|] eqn:Eq; [|discriminate].
    simpl. destruct (Json.get item (py "answer") (JStr [])) as [av|]; [|discriminate].
    simpl. destruct (Json.strip_method av) as [a|] eqn:Ea; [|discriminate].
    simpl. intros H. apply IH in H.
    + destruct H as [H1 H2]. split; [exact H1|].
      destruct (truthy q && truthy a); [rewrite length_app in H2; simpl in H2|]; lia.
    + destruct (truthy q && truthy a) eqn:Et; [|exact Hacc].
      apply Forall_app. split; [exact Hacc|]. constructor; [|constructor].
      apply andb_true_iff in Et. destruct Et as [Tq Ta].
      destruct qv; try discriminate. destruct av; try discriminate.
      injection Eq as <-. injection Ea as <-.
      unfold trimmed_card. simpl.
      rewrite !StripFacts.strip_idempotent.
      repeat split; intros E; rewrite E in *; discriminate.
Qed.

Lemma collect_cards_unreadable items acc :
  Exists (fun item => entry_card item = None) items ->
  collect_cards items acc = Raise AttributeError.
Proof.
  intros H. revert acc. induction H as [item items Hbad|item items _ IH]; intros acc.
  - simpl. destruct item as [| | | | |l|d]; try reflexivity.
    simpl in Hbad. unfold entry_field in Hbad. simpl.
    destruct (Json.dict_lookup (py "question") d) as [[| | | |q| |]|];
      try reflexivity;
      simpl;
      destruct (Json.dict_lookup (py "answer") d) as [[| | | |a| |]|];
      try reflexivity; discriminate.
  - simpl.
    destruct (Json.get item (py "question") (JStr [])) as [qv|e] eqn:Eq.
    2:{ cbn [rbind]. destruct item; simpl in Eq; congruence. }
    cbn [rbind]. destruct (Json.strip_method qv) as [q|e] eqn:Es.
    2:{ cbn [rbind]. destruct qv; simpl in Es; congruence. }
    cbn [rbind]. destruct (Json.get item (py "answer") (JStr [])) as [av|e] eqn:Ea.
    2:{ cbn [rbind]. destruct item; simpl in Ea; congruence. }
    cbn [rbind]. destruct (Json.strip_method av) as [a|e] eqn:Et.
    2:{ cbn [rbind]. destruct av; simpl in Et; congruence. }
    cbn [rbind]. apply IH.
Qed.

(** X5. Whatever the reply and whatever it decodes to, the cards the parser
    returns all have a question and an answer that are non-empty and have no
    white space at either end; and when the "cards" value is a list, there
    are at most as many cards as entries. *)
Theorem parse_flashcards_cards_trimmed (json_loads : str -> option json)
    (raw : str) (cards : list card) :
  _parse_flashcards json_loads raw = Ok cards ->
  Forall trimmed_card cards
  /\ (forall d items,
        json_loads (json_str raw) = Some (JDict d) ->
        Json.dict_lookup (py "cards") d = Some (JList items) ->
        length cards <= length items).
Proof.
  unfold _parse_flashcards.
  destruct (json_loads (json_str raw)) as [data|] eqn:Edata; [|discriminate].
  destruct (Json.get data (py "cards") (JList [])) as [cards_raw|] eqn:Eget;
    [|discriminate].
  cbn [rbind]. destruct (Json.iter cards_raw) as [its|] eqn:Eiter; [|discriminate].
  cbn [rbind]. intros Hc.
  destruct (collect_cards_trimmed its [] cards (List.Forall_nil _) Hc) as [H1 H2].
  split; [exact H1|].
  intros d items Hd Hl. injection Hd as ->. simpl in Eget. rewrite Hl in Eget.
  injection Eget as <-. simpl in Eiter. injection Eiter as <-. exact H2.
Qed.

(** X6. One entry the filter cannot read (an entry that is not an object,
    or whose "question" or "answer" is not a string) makes the parser raise
    AttributeError, wherever it stands in the list and whatever the other
    entries are: no card of the reply is returned. *)
Theorem parse_flashcards_unreadable_entry (json_loads : str -> option json)
    (raw : str) (d : list (str * json)) (items : list json) :
  json_loads (json_str raw) = Some (JDict d) ->
  Json.dict_lookup (py "cards") d = Some (JList items) ->
  Exists (fun item => entry_card item = None) items ->
  _parse_flashcards json_loads raw = Raise AttributeError.
Proof.
  intros Hd Hl Hbad. unfold _parse_flashcards. rewrite Hd. simpl. rewrite Hl.
  simpl. now apply collect_cards_unreadable.
Qed.

Section Generation.

Variable json_loads : str -> option json.
Variable llm : World -> str -> result str.
Variable split_documents : Z -> Z -> list Document -> result (list Document).

(** X7. [generate_from_docs] calls the model exactly when the chunker
    returns at least one chunk, and then once.  For no document, and for
    documents that give no chunk, it returns the empty list and the world is
    unchanged; an exception of the splitter arrives inside a
    [CustomException], the world unchanged.  Otherwise the prompt built from
    the chunks is sent, an exception of the model is passed on as it is, and
    a reply is handed to the parser, whose outcome is the outcome. *)
Theorem generate_from_docs_outcomes (self : FlashcardPipelineState)
    (docs : list Document) (mc : option Z) (w : World) :
  let run := generate_from_docs json_loads llm split_documents self docs mc w in
  let split := split_documents (chunk_size (chunker self))
                               (chunk_overlap (chunker self)) docs in
  (docs = [] -> run = (Ok [], w))
  /\ (docs <> [] -> forall e, split = Raise e ->
        run = (Raise (CustomException e), w))
  /\ (docs <> [] -> split = Ok [] -> run = (Ok [], w))
  /\ (docs <> [] -> forall chunks, split = Ok chunks -> chunks <> [] ->
        snd run = set_prompts (cons (prompt_for self chunks mc)) w
        /\ (forall e, llm w (prompt_for self chunks mc) = Raise e ->
              fst run = Raise e)
        /\ (forall raw, llm w (prompt_for self chunks mc) = Ok raw ->
              fst run = _parse_flashcards json_loads raw)).
Proof.
  cbv zeta. split; [intros ->; reflexivity|].
  assert (Hearly : forall r, docs <> [] ->
            split_documents (chunk_size (chunker self))
                            (chunk_overlap (chunker self)) docs = r ->
            match r with
            | Ok [] => generate_from_docs json_loads llm split_documents self docs mc w
                       = (Ok [], w)
            | Raise e => generate_from_docs json_loads llm split_documents self docs mc w
                         = (Raise (CustomException e), w)
            | _ => True
            end).
  { intros r Hdocs Hr. destruct r as [[|c cs]|e]; [|exact I|];
      unfold generate_from_docs;
      (destruct docs as [|d0 docs0]; [congruence|]);
      unfold bind at 1;
      rewrite (FlashcardFacts.create_chunks_in_memory_split split_documents)
        by discriminate;
      rewrite Hr; reflexivity. }
  split; [|split].
  - intros Hdocs e He. exact (Hearly _ Hdocs He).
  - intros Hdocs He. exact (Hearly _ Hdocs He).
  - intros Hdocs chunks Hsplit Hchunks.
    rewrite (FlashcardFacts.generate_from_docs_run json_loads llm split_documents
               self docs mc w chunks Hdocs Hsplit Hchunks).
    cbn [fst snd]. split; [reflexivity|]. split.
    + intros e ->. reflexivity.
    + intros raw ->. reflexivity.
Qed.

End Generation.

Lemma join_length (sep : str) (parts : list str) :
  parts <> [] ->
  length (join sep parts)
  = fold_right (fun p n => length p + n) 0 parts
    + length sep * (length parts - 1).
Proof.
  induction parts as [|p parts IH]; [congruence|]. intros _.
  destruct parts as [|q parts].
  - simpl. lia.
  - change (join sep (p :: q :: parts)) with (p ++ sep ++ join sep (q :: parts)).
    rewrite !length_app, IH by discriminate. simpl. lia.
Qed.

Lemma build_prompt_length text n :
  length (_build_prompt text n) = 483 + length (str_of_int n) + length text.
Proof.
  unfold _build_prompt, example_card, quoted. cbn [join].
  repeat (rewrite !length_app; cbn [length]).
  repeat match goal with
         | |- context [length (py ?x)] =>
             let v := eval vm_compute in (length (py x)) in
             change (length (py x)) with v
         end.
  lia.
Qed.

Lemma join_app2 (sep : str) (pre : list str) (a b : str) :
  pre <> [] ->
  join sep (pre ++ [a; b]) = join sep pre ++ sep ++ a ++ sep ++ b.
Proof.
  induction pre as [|p pre IH]; [congruence|]. intros _.
  destruct pre as [|q pre]; [reflexivity|].
  change (join sep ((p :: q :: pre) ++ [a; b]))
    with (p ++ sep ++ join sep ((q :: pre) ++ [a; b])).
  rewrite IH by discriminate.
  change (join sep (p :: q :: pre)) with (p ++ sep ++ join sep (q :: pre)).
  now rewrite <- !app_assoc.
Qed.

Lemma join_infix (sep p : str) (parts : list str) :
  In p parts -> exists l r, join sep parts = l ++ p ++ r.
Proof.
  induction parts as [|q parts IH]; [contradiction|].
  intros [-> | Hin].
  - exists []. destruct parts as [|q' parts].
    + exists []. simpl. now rewrite app_nil_r.
    + exists (sep ++ join sep (q' :: parts)). reflexivity.
  - destruct (IH Hin) as (l & r & E).
    destruct parts as [|q' parts]; [contradiction|].
    exists (q ++ sep ++ l), r.
    change (join sep (q :: q' :: parts)) with (q ++ sep ++ join sep (q' :: parts)).
    rewrite E. now rewrite <- !app_assoc.
Qed.

(** The template around the text: what stands before it depends on the
    number of cards only, what follows is the closing quotes and a line
    feed. *)
Lemma build_prompt_frame n :
  exists before,
    forall text,
      _build_prompt text n = before ++ text ++ [dquote; dquote; dquote; nl].
Proof.
  eexists. intros text. unfold _build_prompt.
  match goal with
  | |- join [nl] ?L = _ => rewrite <- (firstn_skipn 20 L)
  end.
  cbn [firstn skipn]. rewrite join_app2 by discriminate.
  set (J := join [nl] _).
  transitivity ((J ++ [nl] ++ [dquote; dquote; dquote]) ++ text
                ++ [dquote; dquote; dquote; nl]).
  - rewrite <- !app_assoc. reflexivity.
  - reflexivity.
Qed.

(** X8. The prompt holds the whole text of every chunk.  It is a template
    that depends on the number of cards only (479 characters and the digits
    of that number), then the texts of the chunks, whole and in order, two
    line feeds between each two of them, then the closing quotes and a line
    feed.  Nothing is cut, however long the documents are. *)
Theorem prompt_not_truncated (self : FlashcardPipelineState) (mc : option Z) :
  exists before,
    length before = 479 + length (str_of_int (or_default mc (max_cards self)))
    /\ forall chunks,
         prompt_for self chunks mc
         = before ++ join [nl; nl] (map page_content chunks)
           ++ [dquote; dquote; dquote; nl]
         /\ (forall c, In c chunks ->
               exists l r, prompt_for self chunks mc = l ++ page_content c ++ r).
Proof.
  destruct (build_prompt_frame (or_default mc (max_cards self))) as [before Hb].
  exists before. split.
  - pose proof (build_prompt_length [] (or_default mc (max_cards self))) as Hl.
    rewrite Hb, !length_app in Hl. simpl in Hl. lia.
  - intros chunks. unfold prompt_for. split; [apply Hb|].
    intros c Hc.
    destruct (join_infix [nl; nl] (page_content c) (map page_content chunks))
      as (l & r & E); [now apply in_map|].
    exists (before ++ l), (r ++ [dquote; dquote; dquote; nl]).
    rewrite Hb, E. now rewrite <- !app_assoc.
Qed.

(** Runs on concrete inputs. *)

Import Samples MoreSamples.

Lemma parse_flashcards_cards_trimmed_witness :
  _parse_flashcards Json.loads padded_reply
  = Ok [mkcard (py "What is APR?") (py "The yearly rate.")]
  /\ Forall trimmed_card [mkcard (py "What is APR?") (py "The yearly rate.")].
Proof.
  assert (H : _parse_flashcards Json.loads padded_reply
              = Ok [mkcard (py "What is APR?") (py "The yearly rate.")])
    by (vm_compute; reflexivity).
  split; [exact H|].
  exact (proj1 (parse_flashcards_cards_trimmed Json.loads padded_reply _ H)).
Defined.

Lemma parse_flashcards_unreadable_entry_witness :
  _parse_flashcards Json.loads mixed_reply = Raise AttributeError.
Proof.
  apply (parse_flashcards_unreadable_entry Json.loads mixed_reply
           [(py "cards",
             JList [JDict [(py "question", JStr (py "Q")); (py "answer", JStr (py "A"))];
                    JInt 5])]
           [JDict [(py "question", JStr (py "Q")); (py "answer", JStr (py "A"))];
            JInt 5]).
  - vm_compute. reflexivity.
  - reflexivity.
  - apply Exists_cons_tl, Exists_cons_hd. reflexivity.
Defined.

Lemma generate_from_docs_outcomes_witness :
  let self := FlashcardPipeline.__init__ (py "/srv/flash") default_max_cards in
  let run := generate_from_docs Json.loads llm_unreachable split_identity self
               [interest_doc] None empty_world in
  fst run = Raise (LibraryError (py "connection refused"))
  /\ snd run = set_prompts (cons (prompt_for self [interest_doc] None)) empty_world.
Proof.
  intros self run.
  destruct (generate_from_docs_outcomes Json.loads llm_unreachable split_identity
              self [interest_doc] None empty_world) as (_ & _ & _ & H).
  destruct (H ltac:(discriminate) [interest_doc] eq_refl ltac:(discriminate))
    as (Hw & He & _).
  split; [exact (He _ eq_refl) | exact Hw].
Defined.

End PipelineFacts.

(** ** Loading documents *)

Module IngestionFacts.

Import Ingestion MoreTerms.

Lemma setdefault_tagged dt d : tagged_by_default dt d (setdefault_doc_type dt d).
Proof.
  unfold tagged_by_default, setdefault_doc_type.
  destruct (metadata d !! py "doc_type") as [t|] eqn:E; simpl.
  - repeat split. exact E.
  - repeat split.
    + apply lookup_insert_eq.
    + intros k Hk. apply lookup_insert_ne. congruence.
Qed.

Section Upload.

Variable pdf_load : str -> str -> result (list Document).

(** X9. [load_uploaded_pdf] raises FileNotFoundError for a path that is
    neither a file nor a directory, whatever the loader would do, and leaves
    the world as it is. *)
Theorem load_uploaded_pdf_missing (path doc_type : str) (w : World) :
  files w !! path = None -> path ∉ dirs w ->
  load_uploaded_pdf pdf_load path doc_type w = (Raise FileNotFoundError, w).
Proof.
  intros Hf Hd. unfold load_uploaded_pdf, bind, os.exists_, raise. rewrite Hf.
  rewrite (bool_decide_eq_false_2 (is_Some None)) by (intros [x Hx]; discriminate).
  now rewrite (bool_decide_eq_false_2 _ Hd).
Qed.

(** X10. When [load_uploaded_pdf] returns, it returns the documents the
    loader made of the contents of the file, in the same order and with the
    same text; each has a "doc_type": its own when the loader had set one,
    the given one otherwise; no other metadata key is changed, and the world
    is unchanged. *)
Theorem load_uploaded_pdf_tags (path doc_type : str) (w w' : World)
    (docs : list Document) :
  load_uploaded_pdf pdf_load path doc_type w = (Ok docs, w') ->
  w' = w
  /\ exists contents loaded,
       files w !! path = Some contents
       /\ pdf_load path contents = Ok loaded
       /\ Forall2 (tagged_by_default doc_type) loaded docs.
Proof.
  unfold load_uploaded_pdf, bind, os.exists_, raise, ret.
  destruct (negb _); [discriminate|].
  destruct (files w !! path) as [contents|]; [|discriminate].
  destruct (pdf_load path contents) as [loaded|] eqn:E; [|discriminate].
  intros H. injection H as <- <-. split; [reflexivity|].
  exists contents, loaded. repeat split; [exact E|].
  clear E. induction loaded as [|d l IH]; simpl; constructor;
    [apply setdefault_tagged | exact IH].
Qed.

End Upload.

Section Bulk.

Variable glob_star : World -> str -> list str.
Variable directory_load : World -> str -> result (list Document).
Variable DATA_DIR : str.

Lemma load_folders_run folders acc w docs w' :
  load_folders directory_load folders acc w = (Ok docs, w') ->
  w' = w
  /\ exists loaded,
       Forall2 (fun folder fd => directory_load w folder = Ok fd) folders loaded
       /\ docs = acc ++ tagged_by_folder folders loaded.
Proof.
  revert acc. induction folders as [|folder folders IH]; intros acc; simpl.
  - unfold ret. intros H. injection H as <- <-. split; [reflexivity|].
    exists []. split; [constructor | now rewrite app_nil_r].
  - unfold bind at 1. destruct (directory_load w folder) as [fd|] eqn:E;
      [|discriminate].
    intros H. apply IH in H. destruct H as (-> & loaded & Hl & ->).
    split; [reflexivity|]. exists (fd :: loaded).
    split; [now constructor | simpl; now rewrite <- app_assoc].
Qed.

Lemma tagged_by_folder_doc_type folders loaded :
  length folders = length loaded ->
  Forall (fun d => exists folder,
                     In folder folders
                     /\ metadata d !! py "doc_type" = Some (path_name folder))
         (tagged_by_folder folders loaded).
Proof.
  revert loaded. induction folders as [|folder folders IH];
    intros [|fd loaded] Hlen; simpl; try constructor; try discriminate.
  apply Forall_app. split.
  - apply Forall_map. apply Forall_forall. intros d _. exists folder.
    split; [now left|]. simpl. apply lookup_insert_eq.
  - eapply Forall_impl; [apply IH; simpl in Hlen; lia|].
    intros d (f & Hin & Hd). exists f. split; [now right | exact Hd].
Qed.

(** X11. When [fetch_documents] returns, every document carries as
    "doc_type" the name of an entry of the base directory that is a
    directory, whatever "doc_type" the loader had given it; the documents
    are those of the folders, folder after folder in the order of the
    listing, and the world is unchanged. *)
Theorem fetch_documents_tags (base_dir : option str) (w w' : World)
    (docs : list Document) :
  let dir := default DATA_DIR base_dir in
  let folders := List.filter (is_dir w) (glob_star w dir) in
  fetch_documents glob_star directory_load DATA_DIR base_dir w = (Ok docs, w') ->
  w' = w
  /\ Forall (fun d => exists folder,
                        In folder (glob_star w dir) /\ folder ∈ dirs w
                        /\ metadata d !! py "doc_type" = Some (path_name folder))
            docs
  /\ exists loaded,
       Forall2 (fun folder fd => directory_load w folder = Ok fd) folders loaded
       /\ docs = tagged_by_folder folders loaded.
Proof.
  cbv zeta. unfold fetch_documents, bind at 1, os.exists_, raise.
  destruct (negb _); [discriminate|].
  unfold bind at 1. intros H. apply load_folders_run in H.
  destruct H as (-> & loaded & Hl & ->). simpl.
  split; [reflexivity|]. split; [|now exists loaded].
  eapply Forall_impl;
    [apply tagged_by_folder_doc_type; now apply Forall2_length in Hl|].
  intros d (f & Hin & Hd). exists f. apply filter_In in Hin.
  destruct Hin as [Hin Hdir]. unfold is_dir in Hdir.
  apply bool_decide_eq_true_1 in Hdir. now repeat split.
Qed.

(** X12. [fetch_documents] raises FileNotFoundError when the base directory
    does not exist, and returns the empty list, loading nothing, when it
    exists and none of its entries is a directory; in both cases whatever
    the loader would do. *)
Theorem fetch_documents_without_folders (base_dir : option str) (w : World) :
  let dir := default DATA_DIR base_dir in
  (files w !! dir = None -> dir ∉ dirs w ->
   fetch_documents glob_star directory_load DATA_DIR base_dir w
   = (Raise FileNotFoundError, w))
  /\ (dir ∈ dirs w ->
      Forall (fun entry => entry ∉ dirs w) (glob_star w dir) ->
      fetch_documents glob_star directory_load DATA_DIR base_dir w = (Ok [], w)).
Proof.
  cbv zeta. split.
  - intros Hf Hd. unfold fetch_documents, bind, os.exists_, raise. rewrite Hf.
    rewrite (bool_decide_eq_false_2 (is_Some None)) by (intros [x Hx]; discriminate).
    now rewrite (bool_decide_eq_false_2 _ Hd).
  - intros Hd Hnone. unfold fetch_documents, bind at 1, os.exists_, raise.
    rewrite (bool_decide_eq_true_2 _ Hd), orb_true_r. simpl.
    unfold bind at 1.
    assert (E : List.filter (is_dir w) (glob_star w (default DATA_DIR base_dir)) = []).
    { induction Hnone as [|x l Hx _ IH]; simpl; [reflexivity|].
      unfold is_dir at 1. now rewrite (bool_decide_eq_false_2 _ Hx). }
    rewrite E. reflexivity.
Qed.

End Bulk.

Lemma path_name_join (dir name : str) :
  ~ In 47%N name -> path_name (dir ++ py "/" ++ name) = name.
Proof.
  intros Hn. unfold path_name. rewrite !rev_app_distr.
  change (rev (py "/")) with [47%N]. rewrite <- app_assoc. simpl.
  assert (H : forall l rest, ~ In 47%N l ->
            take_while (fun c => negb (c =? 47)%N) (l ++ 47%N :: rest) = l).
  { induction l as [|c l IH]; intros rest Hl; simpl; [reflexivity|].
    destruct (N.eqb_spec c 47) as [->|Hc]; [exfalso; apply Hl; now left|].
    simpl. rewrite IH; [reflexivity|]. intros Hin. apply Hl. now right. }
  rewrite H by (rewrite <- in_rev; exact Hn). apply rev_involutive.
Qed.

(** Runs on concrete inputs. *)

Import Samples MoreSamples.

Lemma load_uploaded_pdf_missing_witness :
  load_uploaded_pdf pdf_one_page (py "/tmp/gone.pdf") (py "uploaded") data_world
  = (Raise FileNotFoundError, data_world).
Proof.
  apply (load_uploaded_pdf_missing pdf_one_page (py "/tmp/gone.pdf") (py "uploaded")
           data_world).
  - vm_compute. reflexivity.
  - compute_done.
Defined.

Lemma load_uploaded_pdf_tags_witness :
  let path := py "/srv/flash/data/README.md" in
  exists contents loaded,
    files data_world !! path = Some contents
    /\ pdf_two_pages path contents = Ok loaded
    /\ Forall2 (tagged_by_default (py "uploaded")) loaded
         [ mkDocument (py "Bank documents")
             (<[py "doc_type" := py "uploaded"]> (<[py "source" := path]> ∅));
           mkDocument (py "Bank documents") (<[py "doc_type" := py "appendix"]> ∅) ].
Proof.
  intros path.
  refine (proj2 (load_uploaded_pdf_tags pdf_two_pages path (py "uploaded")
                   data_world data_world _ _)).
  vm_compute. reflexivity.
Defined.

Lemma fetch_documents_tags_witness :
  let dir := py "/srv/flash/data" in
  let docs := [ mkDocument (dir ++ py "/pricing") (<[py "doc_type" := py "pricing"]> ∅);
                mkDocument (dir ++ py "/product_terms")
                  (<[py "doc_type" := py "product_terms"]> ∅) ] in
  fetch_documents ls_data load_one_draft dir None data_world = (Ok docs, data_world)
  /\ Forall (fun d => exists folder,
                        In folder (ls_data data_world dir) /\ folder ∈ dirs data_world
                        /\ metadata d !! py "doc_type" = Some (path_name folder))
            docs.
Proof.
  intros dir docs.
  assert (H : fetch_documents ls_data load_one_draft dir None data_world
              = (Ok docs, data_world)) by (vm_compute; reflexivity).
  split; [exact H|].
  exact (proj1 (proj2 (fetch_documents_tags ls_data load_one_draft dir None
                         data_world data_world docs H))).
Defined.

Lemma fetch_documents_without_folders_witness :
  fetch_documents ls_data load_one_draft (py "/srv/flash/data") None empty_world
  = (Raise FileNotFoundError, empty_world)
  /\ fetch_documents ls_readme load_one_draft (py "/srv/flash/data") None flat_world
     = (Ok [], flat_world).
Proof.
  split.
  - apply (proj1 (fetch_documents_without_folders ls_data load_one_draft
                    (py "/srv/flash/data") None empty_world)).
    + reflexivity.
    + compute_done.
  - apply (proj2 (fetch_documents_without_folders ls_readme load_one_draft
                    (py "/srv/flash/data") None flat_world)).
    + compute_done.
    + repeat constructor. compute_done.
Defined.

End IngestionFacts.

(** ** The schema and the endpoints *)

Module ServerFacts.

Import Schemas App MoreTerms.

Lemma validate_history_valid l :
  Forall (fun m => valid_role (fst m)) l ->
  validate_history l = Ok (map (fun m => mkChatMessage (fst m) (snd m)) l).
Proof.
  induction 1 as [|m l Hm _ IH]; [reflexivity|].
  simpl. unfold validate_ChatMessage. unfold valid_role in Hm.
  destruct (decide _) as [_|Hn]; [|contradiction]. simpl. now rewrite IH.
Qed.

Lemma validate_history_invalid l :
  ~ Forall (fun m => valid_role (fst m)) l ->
  validate_history l = Raise ValidationError.
Proof.
  induction l as [|m l IH]; intros Hn.
  - exfalso. apply Hn. constructor.
  - simpl. unfold validate_ChatMessage.
    destruct (decide _) as [Hm|_]; [|reflexivity]. simpl.
    rewrite IH; [reflexivity|]. intros Hl. apply Hn. now constructor.
Qed.

Lemma history_round_trip (l : list (str * str)) :
  map (fun msg => (role msg, content msg))
      (map (fun m => mkChatMessage (fst m) (snd m)) l) = l.
Proof.
  induction l as [|[r c] l IH]; simpl; [reflexivity|]. now rewrite IH.
Qed.

Lemma validate_valid body :
  valid_body body -> validate_AskRequest body = Ok (request_of body).
Proof.
  intros [Hq Hh]. unfold validate_AskRequest.
  destruct (body_question body) as [|c q] eqn:E; [congruence|]. simpl.
  rewrite (validate_history_valid _ Hh). simpl. unfold request_of. now rewrite E.
Qed.

Lemma validate_invalid body :
  ~ valid_body body -> validate_AskRequest body = Raise ValidationError.
Proof.
  intros Hn. unfold validate_AskRequest.
  destruct (body_question body) as [|c q] eqn:E; [reflexivity|]. simpl.
  rewrite validate_history_invalid; [reflexivity|].
  intros Hh. apply Hn. split; [congruence | exact Hh].
Qed.

Lemma valid_body_dec body : valid_body body \/ ~ valid_body body.
Proof.
  unfold valid_body.
  destruct (body_question body) as [|c q]; [right; intros [H _]; congruence|].
  assert (Hdec : forall l : list (str * str),
             Forall (fun m => valid_role (fst m)) l
             \/ ~ Forall (fun m => valid_role (fst m)) l).
  { induction l as [|m l IH]; [left; constructor|].
    destruct (decide (fst m = py "user" \/ fst m = py "assistant")) as [Hm|Hm].
    - destruct IH as [IH|IH]; [left; now constructor|].
      right. intros H. inversion H. contradiction.
    - right. intros H. inversion H. contradiction. }
  destruct (Hdec (body_history body)) as [H|H].
  - left. split; [discriminate | exact H].
  - right. intros [_ H']. contradiction.
Qed.

(** X13. The schema accepts a body exactly when its question has at least
    one character (white space counts) and every role of its history is
    "user" or "assistant"; the request then has the fields of the body
    unchanged, and what it dumps is the body again.  Any other body gives
    ValidationError. *)
Theorem validate_AskRequest_accepts (body : AskBody) :
  (valid_body body -> validate_AskRequest body = Ok (request_of body))
  /\ (~ valid_body body -> validate_AskRequest body = Raise ValidationError)
  /\ (forall r, validate_AskRequest body = Ok r ->
        valid_body body /\ GradioUI.model_dump r = body).
Proof.
  split; [apply validate_valid|]. split; [apply validate_invalid|].
  intros r Hr. destruct (valid_body_dec body) as [Hv|Hv].
  - split; [exact Hv|]. rewrite (validate_valid _ Hv) in Hr. injection Hr as <-.
    unfold GradioUI.model_dump, request_of. simpl. rewrite history_round_trip.
    now destruct body.
  - rewrite (validate_invalid _ Hv) in Hr. discriminate.
Qed.

Section Ask.

Variable answer_question :
  World -> str -> list (str * str) -> option str -> result (str * list Document).

Lemma post_ask_valid_run body w :
  valid_body body ->
  post_ask answer_question body w =
    (match answer_question w (body_question body) (body_history body)
             (body_doc_type body) with
     | Ok r => HTTP_200 (mkAskResponse (fst r) (_build_sources (snd r) 3))
     | Raise e => HTTP_error 500 e
     end,
     set_questions (cons (body_question body)) w).
Proof.
  intros Hv. unfold post_ask. rewrite (validate_valid _ Hv).
  unfold ask_question, try_except, bind, pipeline_answer_question, ret, raise.
  unfold request_of. simpl. rewrite history_round_trip.
  now destruct (answer_question w _ _ _).
Qed.

(** X14. For a body that passes validation, the /ask route calls the
    orchestrator once, with the question, the history in its order and the
    doc_type of the body; it answers 200 with the answer and the summaries
    of the first three documents when the orchestrator returns, and 500
    with the exception of the orchestrator when it raises. *)
Theorem post_ask_outcomes (body : AskBody) (w : World) :
  valid_body body ->
  post_ask answer_question body w =
    (match answer_question w (body_question body) (body_history body)
             (body_doc_type body) with
     | Ok r => HTTP_200 (mkAskResponse (fst r) (_build_sources (snd r) 3))
     | Raise e => HTTP_error 500 e
     end,
     set_questions (cons (body_question body)) w).
Proof. apply post_ask_valid_run. Qed.

End Ask.

Section Flashcards.

Variable json_loads : str -> option json.
Variable llm : World -> str -> result str.
Variable split_documents : Z -> Z -> list Document -> result (list Document).
Variable pdf_load : str -> str -> result (list Document).
Variable mktemp : World -> str.
Variable PROJECT_ROOT : str.

Lemma load_uploaded_pdf_present path dt w contents :
  files w !! path = Some contents ->
  Ingestion.load_uploaded_pdf pdf_load path dt w =
    (let? docs := pdf_load path contents in
     Ok (map (Ingestion.setdefault_doc_type dt) docs), w).
Proof.
  intros Hf. unfold Ingestion.load_uploaded_pdf, bind, os.exists_, raise, ret.
  rewrite Hf. rewrite (bool_decide_eq_true_2 (is_Some (Some contents))) by eauto.
  cbn. rewrite ?Hf. now destruct (pdf_load path contents).
Qed.

(** X15. The /flashcards endpoint hands the loader exactly the bytes of the
    upload, under the temporary name; documents without a "doc_type" get
    "flashcard_upload"; the flashcards of the response are the cards of the
    pipeline, one for one and in order.  An exception of any step (reading
    the upload, creating the temporary file, writing to it, loading,
    generating) comes out as an HTTPException with status 500 around it; the
    check that the file exists never fails. *)
Theorem generate_flashcards_outcome (file_read : result str) (max_cards : Z)
    (w : World) :
  fst (generate_flashcards json_loads llm split_documents pdf_load mktemp
         PROJECT_ROOT file_read max_cards w)
  = or_500
      (let? contents := file_read in
       let? _ := upload_saved mktemp contents w in
       let? loaded := pdf_load (mktemp w) contents in
       let? cards :=
         fst (FlashcardPipeline.generate_from_docs json_loads llm split_documents
                (get_flashcard_pipeline PROJECT_ROOT)
                (map (Ingestion.setdefault_doc_type (py "flashcard_upload")) loaded)
                (Some max_cards) (upload_world mktemp contents w)) in
       Ok (mkFlashcardResponse (map flashcard_of cards))).
Proof.
  destruct file_read as [contents|e0]; [|reflexivity].
  rewrite AppFacts.generate_flashcards_saved. unfold upload_saved. cbn [rbind].
  destruct (write_fault w (mktemp w) []) as [f|]; [reflexivity|].
  destruct (write_fault w (mktemp w) contents) as [f|]; [reflexivity|].
  cbn [fst rbind]. f_equal.
  assert (Hw1 : files (upload_world mktemp contents w) !! mktemp w = Some contents)
    by (simpl; apply lookup_insert_eq).
  unfold try_body, bind at 1.
  rewrite (load_uploaded_pdf_present _ _ _ _ Hw1).
  destruct (pdf_load (mktemp w) contents) as [loaded|e1]; [|reflexivity].
  cbn [rbind]. unfold bind, ret.
  now destruct (FlashcardPipeline.generate_from_docs _ _ _ _ _ _ _) as [[cards|e2] wg].
Qed.

End Flashcards.

(** Runs on concrete inputs. *)

Import Samples MoreSamples.

Lemma validate_AskRequest_accepts_witness :
  validate_AskRequest (mkAskBody (py " ") None [(py "user", py "Hello")])
  = Ok (mkAskRequest (py " ") None [mkChatMessage (py "user") (py "Hello")])
  /\ validate_AskRequest (mkAskBody (py "Hi") None [(py "system", py "Hello")])
     = Raise ValidationError.
Proof.
  split.
  - apply (proj1 (validate_AskRequest_accepts
                    (mkAskBody (py " ") None [(py "user", py "Hello")]))).
    split; [discriminate | repeat constructor; left; reflexivity].
  - apply (proj1 (proj2 (validate_AskRequest_accepts
                           (mkAskBody (py "Hi") None [(py "system", py "Hello")])))).
    intros [_ H]. inversion H as [|m l [Hr|Hr] _]; discriminate Hr.
Defined.

Lemma post_ask_outcomes_witness :
  post_ask rag_four_docs
    (mkAskBody (py "How long are rates fixed?") None [(py "user", py "Hello")])
    empty_world
  = (HTTP_200 (mkAskResponse (py "Twelve months.") (_build_sources four_docs 3)),
     set_questions (cons (py "How long are rates fixed?")) empty_world).
Proof.
  apply (post_ask_outcomes rag_four_docs
           (mkAskBody (py "How long are rates fixed?") None [(py "user", py "Hello")])
           empty_world).
  split; [discriminate | repeat constructor; left; reflexivity].
Defined.

End ServerFacts.

(** ** The chat interface *)

Module GradioFacts.

Import Schemas GradioUI MoreTerms.

Lemma entry_messages_roles e :
  Forall (fun m => truthy (fst m) = true) (entry_messages e).
Proof.
  destruct e as [[r|] [c|] | [[|u0 u]|] [[|b0 b]|] | ]; simpl;
    try destruct (truthy r) eqn:E; repeat constructor; exact E.
Qed.

Lemma messages_roles h :
  Forall (fun m => truthy (fst m) = true) (_history_to_messages h).
Proof.
  destruct h as [h|]; simpl; [|constructor].
  induction h as [|e h IH]; simpl; [constructor|].
  apply Forall_app. split; [apply entry_messages_roles | exact IH].
Qed.

Lemma messages_of_dicts l :
  Forall (fun m => truthy (fst m) = true) l ->
  _history_to_messages (Some (map as_entry l)) = l.
Proof.
  induction 1 as [|[r c] l Hm _ IH]; [reflexivity|].
  simpl in *. rewrite Hm. simpl. now rewrite IH.
Qed.

Lemma entry_messages_pairs e :
  not_dict e -> Forall (fun m => valid_role (fst m)) (entry_messages e).
Proof.
  destruct e as [r c | [[|u0 u]|] [[|b0 b]|] | ]; simpl; intros H;
    [contradiction | ..]; repeat constructor;
    solve [left; reflexivity | right; reflexivity].
Qed.

Lemma model_dump_request_of body : model_dump (request_of body) = body.
Proof.
  unfold model_dump, request_of. simpl. rewrite ServerFacts.history_round_trip.
  now destruct body.
Qed.

Lemma rstrip_char_snoc c s : rstrip_char c (s ++ [c]) = rstrip_char c s.
Proof.
  unfold rstrip_char. rewrite rev_app_distr. simpl. now rewrite N.eqb_refl.
Qed.

Lemma join_cons_cons sep p q rest :
  join sep (p :: q :: rest) = p ++ sep ++ join sep (q :: rest).
Proof. reflexivity. Qed.

(** X16. The messages made from a history all have a non-empty role; so
    when the interface hands a conversation back as dicts, the next call
    reads the same messages, in the same order: the conversion is
    idempotent, and the history a chat turn returns (the earlier messages,
    the message of the user, the text of the assistant, either of which may
    be empty) is read back whole. *)
Theorem history_to_messages_read_back (history : option (list entry))
    (message reply : str) :
  let msgs := _history_to_messages history in
  let updated := msgs ++ [(py "user", message)] ++ [(py "assistant", reply)] in
  _history_to_messages (Some (map as_entry msgs)) = msgs
  /\ _history_to_messages (Some (map as_entry updated)) = updated.
Proof.
  intros msgs updated. split.
  - apply messages_of_dicts, messages_roles.
  - apply messages_of_dicts. unfold updated.
    apply Forall_app. split; [apply messages_roles|].
    repeat constructor.
Qed.

(** X17. A history of two-element entries (and of entries that are neither
    dict nor pair) gives only the roles "user" and "assistant", so with a
    non-empty message the body passes the checks of AskRequest. *)
Theorem pair_history_valid (message : str) (history : list entry) (doc_type : str) :
  message <> [] ->
  Forall not_dict history ->
  valid_body (chat_body message (Some history) doc_type).
Proof.
  intros Hm Hh. split; [exact Hm|]. simpl.
  induction Hh as [|e h He _ IH]; simpl; [constructor|].
  apply Forall_app. split; [now apply entry_messages_pairs | exact IH].
Qed.

(** X18. The formatted answer begins with the answer stripped of outer
    white space; without sources it is exactly that, and with sources it
    goes on with an empty line, the line "Sources:" and one line for each
    source, numbered from 1. *)
Theorem format_answer_layout (response : AskResponse) :
  (sources response = [] -> _format_answer response = strip (answer response))
  /\ (sources response <> [] ->
      _format_answer response
      = strip (answer response) ++ [nl] ++ [nl] ++ py "Sources:" ++ [nl]
        ++ join [nl] (imap (fun i src => source_line (1 + Z.of_nat i) src)
                           (sources response))).
Proof.
  assert (Hl : forall srcs idx,
             source_lines idx srcs
             = imap (fun i src => source_line (idx + Z.of_nat i) src) srcs).
  { induction srcs as [|s srcs IH]; intros idx; simpl; [reflexivity|].
    rewrite Z.add_0_r. f_equal. rewrite IH. apply imap_ext.
    intros i x _. simpl. f_equal. lia. }
  unfold _format_answer. destruct (sources response) as [|s srcs].
  - split; [reflexivity | congruence].
  - split; [discriminate|]. intros _. rewrite Hl.
    change ([strip (answer response)] ++ [[]; py "Sources:"] ++ ?l)
      with (strip (answer response) :: [] :: py "Sources:" :: l).
    rewrite !join_cons_cons. reflexivity.
Qed.

Section Chat.

Variable post : str -> AskBody -> M (http_response AskResponse).
Variable exn_str : exn -> str.

Lemma chat_response_run message history doc_type api_url w :
  valid_body (chat_body message history doc_type) ->
  _chat_response post exn_str message history doc_type api_url w =
    (Ok (_history_to_messages history
         ++ [(py "user", message)]
         ++ [(py "assistant",
              chat_answer exn_str
                (fst (post (rstrip_char 47%N api_url ++ py "/ask")
                           (chat_body message history doc_type) w)))]),
     snd (post (rstrip_char 47%N api_url ++ py "/ask")
               (chat_body message history doc_type) w)).
Proof.
  intros Hv. unfold _chat_response. unfold bind at 1, lift.
  change (mkAskBody message _ _) with (chat_body message history doc_type).
  rewrite (ServerFacts.validate_valid _ Hv), model_dump_request_of.
  unfold bind at 1, try_except, bind, ret, lift, chat_answer.
  destruct (post _ _ w) as [[resp|e] w']; simpl; [|reflexivity].
  now destruct (read_response resp).
Qed.

(** X19. When the body does not pass the checks of AskRequest (an empty
    message, or a dict of the history with a role other than "user" and
    "assistant"), the call raises the validation error: the request is
    built outside the try block, so no error text is shown, nothing is
    posted and the world is unchanged. *)
Theorem chat_response_invalid_raises (message : str)
    (history : option (list entry)) (doc_type api_url : str) (w : World) :
  ~ valid_body (chat_body message history doc_type) ->
  _chat_response post exn_str message history doc_type api_url w
  = (Raise ValidationError, w).
Proof.
  intros Hv. unfold _chat_response. unfold bind at 1, lift.
  change (mkAskBody message _ _) with (chat_body message history doc_type).
  now rewrite (ServerFacts.validate_invalid _ Hv).
Qed.

(** X20. When the body passes the checks, the call never raises, whatever
    the request does: it posts the body once to the address with its
    trailing slashes removed and "/ask" appended, and returns the messages
    of the history followed by the message of the user and the text of the
    assistant, which is the formatted answer on success and "Error talking
    to API: " with the text of the exception otherwise. *)
Theorem chat_response_valid_run (message : str)
    (history : option (list entry)) (doc_type api_url : str) (w : World) :
  valid_body (chat_body message history doc_type) ->
  _chat_response post exn_str message history doc_type api_url w =
    (Ok (_history_to_messages history
         ++ [(py "user", message)]
         ++ [(py "assistant",
              chat_answer exn_str
                (fst (post (rstrip_char 47%N api_url ++ py "/ask")
                           (chat_body message history doc_type) w)))]),
     snd (post (rstrip_char 47%N api_url ++ py "/ask")
               (chat_body message history doc_type) w)).
Proof. apply chat_response_run. Qed.

(** X22. A slash at the end of the address of the API makes no
    difference. *)
Theorem chat_response_trailing_slash (message : str)
    (history : option (list entry)) (doc_type api_url : str) :
  _chat_response post exn_str message history doc_type (api_url ++ py "/")
  = _chat_response post exn_str message history doc_type api_url.
Proof.
  unfold _chat_response. change (py "/") with [47%N].
  now rewrite rstrip_char_snoc.
Qed.

End Chat.

Section EndToEnd.

Variable answer_question :
  World -> str -> list (str * str) -> option str -> result (str * list Document).
Variable exn_str : exn -> str.

(** X21. The interface in front of the /ask route: for a body that passes
    the checks the server never answers 422; the orchestrator is asked
    once, with the message, the messages of the history and the doc_type
    (None when the box is empty); the assistant shows the answer with the
    first three sources when the orchestrator returns, and the text of the
    status error when it raises; the question is recorded once. *)
Theorem chat_with_app (message : str) (history : option (list entry))
    (doc_type api_url : str) (w : World) :
  valid_body (chat_body message history doc_type) ->
  _chat_response (app_client answer_question) exn_str message history doc_type
                 api_url w =
    (Ok (_history_to_messages history
         ++ [(py "user", message)]
         ++ [(py "assistant",
              match answer_question w message (_history_to_messages history)
                      (if truthy doc_type then Some doc_type else None) with
              | Ok r => _format_answer
                          (mkAskResponse (fst r) (App._build_sources (snd r) 3))
              | Raise e => py "Error talking to API: "
                           ++ exn_str (LibraryError (py "HTTPStatusError"))
              end)]),
     set_questions (cons message) w).
Proof.
  intros Hv. rewrite (chat_response_run _ _ _ _ _ _ _ Hv).
  unfold app_client. rewrite (ServerFacts.post_ask_valid_run _ _ _ Hv).
  simpl. unfold chat_answer. simpl.
  destruct (answer_question w message _ _) as [r|e]; reflexivity.
Qed.

End EndToEnd.

(** Runs on concrete inputs. *)

Import Samples MoreSamples.

Lemma pair_history_valid_witness :
  valid_body (chat_body (py "What about savings?") (Some pair_history)
                (py "product_terms")).
Proof.
  apply (pair_history_valid (py "What about savings?") pair_history (py "product_terms")).
  - discriminate.
  - repeat constructor.
Defined.

Lemma format_answer_layout_witness :
  _format_answer (mkAskResponse (py "  Twelve months. ") []) = py "Twelve months."
  /\ _format_answer
       (mkAskResponse (py "Twelve months.")
          [mkSourceDocument (Some (py "terms.pdf")) None (py "Rates are fixed.")])
     = py "Twelve months." ++ [nl; nl] ++ py "Sources:" ++ [nl]
       ++ py "1. document :: terms.pdf".
Proof.
  split.
  - exact (proj1 (format_answer_layout (mkAskResponse (py "  Twelve months. ") []))
             eq_refl).
  - apply (proj2 (format_answer_layout
                    (mkAskResponse (py "Twelve months.")
                       [mkSourceDocument (Some (py "terms.pdf")) None
                          (py "Rates are fixed.")]))).
    discriminate.
Defined.

Lemma chat_response_invalid_raises_witness :
  _chat_response post_refused exn_text (py "Hello") (Some system_history) []
    (py "http://localhost:8000") empty_world
  = (Raise ValidationError, empty_world).
Proof.
  apply (chat_response_invalid_raises post_refused exn_text (py "Hello")
           (Some system_history) [] (py "http://localhost:8000") empty_world).
  intros [_ H]. inversion H as [|m l [Hr|Hr] _]; discriminate Hr.
Defined.

Lemma chat_response_valid_run_witness :
  _chat_response post_refused exn_text (py "What about savings?") (Some pair_history)
    [] (py "http://localhost:8000/") empty_world
  = (Ok [ (py "user", py "Hello"); (py "assistant", py "Hi, how can I help?");
          (py "user", py "And the fees?"); (py "user", py "What about savings?");
          (py "assistant", py "Error talking to API: connection refused") ],
     empty_world).
Proof.
  apply (chat_response_valid_run post_refused exn_text (py "What about savings?")
           (Some pair_history) [] (py "http://localhost:8000/") empty_world).
  split; [discriminate | repeat constructor; solve [left; reflexivity | right; reflexivity]].
Defined.

Lemma chat_with_app_witness :
  _chat_response (app_client rag_four_docs) exn_text (py "How long are rates fixed?")
    None [] (py "http://localhost:8000") empty_world
  = (Ok [ (py "user", py "How long are rates fixed?");
          (py "assistant",
           _format_answer (mkAskResponse (py "Twelve months.")
                             (App._build_sources four_docs 3))) ],
     set_questions (cons (py "How long are rates fixed?")) empty_world).
Proof.
  apply (chat_with_app rag_four_docs exn_text (py "How long are rates fixed?")
           None [] (py "http://localhost:8000") empty_world).
  split; [discriminate | constructor].
Defined.

End GradioFacts.
